(** * SSD1306 OLED driver over I2C (python_ssd1306/state.py)

    A shallow embedding of the classes [_SSD1306] and [SSD1306_I2C].
    Python integers are [Z]; the bytearray [self.buffer] is a [list Z];
    the object [self] is the record [SSD1306], passed explicitly.  Every
    call on the bus handle, on the reset line and to [time.sleep] is
    recorded, in program order, in the field [bus]. *)

From Stdlib Require Import ZArith Lia List Bool.
From stdpp Require Import base tactics option list numbers.
Import ListNotations.
Local Open Scope Z_scope.

(** ** Command constants (state.py, lines 9-25) *)

Definition SET_CONTRAST : Z := 0x81.
Definition SET_ENTIRE_ON : Z := 0xA4.
Definition SET_NORM_INV : Z := 0xA6.
Definition SET_DISP : Z := 0xAE.
Definition SET_MEM_ADDR : Z := 0x20.
Definition SET_COL_ADDR : Z := 0x21.
Definition SET_PAGE_ADDR : Z := 0x22.
Definition SET_DISP_START_LINE : Z := 0x40.
Definition SET_SEG_REMAP : Z := 0xA0.
Definition SET_MUX_RATIO : Z := 0xA8.
Definition SET_COM_OUT_DIR : Z := 0xC0.
Definition SET_DISP_OFFSET : Z := 0xD3.
Definition SET_COM_PIN_CFG : Z := 0xDA.
Definition SET_DISP_CLK_DIV : Z := 0xD5.
Definition SET_PRECHARGE : Z := 0xD9.
Definition SET_VCOM_DESEL : Z := 0xDB.
Definition SET_CHARGE_PUMP : Z := 0x8D.

(** ** The outside world *)

(** A reset line (a DigitalInOut object), identified by a number. *)
Definition pin : Type := nat.

(** What the driver does to its collaborators.  [Sleep] carries the
    duration asked of [time.sleep], in microseconds: [time.sleep(0.001)]
    is [Sleep 1000] and [time.sleep(0.010)] is [Sleep 10000]. *)
Inductive event : Type :=
  | I2CWrite (a ctrl val : Z)          (* i2c.write_byte_data(a, ctrl, val) *)
  | SwitchToOutput (p : pin) (v : bool) (* p.switch_to_output(value=v) *)
  | PinValue (p : pin) (v : bool)       (* p.value = v *)
  | Sleep (us : Z).

(** ** The driver object *)

(** [temp = bytearray(2)] is allocated by the constructor and never used;
    it is left out. *)
Record SSD1306 : Type := mkSSD1306 {
  addr : Z;
  buffer : list Z;
  width : Z;
  height : Z;
  external_vcc : bool;
  reset_pin : option pin;
  pages : Z;
  _power : bool;
  bus : list event
}.

Definition set_bus (s : SSD1306) (l : list event) : SSD1306 :=
  mkSSD1306 (addr s) (buffer s) (width s) (height s) (external_vcc s)
            (reset_pin s) (pages s) (_power s) l.

Definition set_buffer (s : SSD1306) (b : list Z) : SSD1306 :=
  mkSSD1306 (addr s) b (width s) (height s) (external_vcc s)
            (reset_pin s) (pages s) (_power s) (bus s).

Definition set_power (s : SSD1306) (p : bool) : SSD1306 :=
  mkSSD1306 (addr s) (buffer s) (width s) (height s) (external_vcc s)
            (reset_pin s) (pages s) p (bus s).

Definition emit (s : SSD1306) (e : event) : SSD1306 :=
  set_bus s (bus s ++ [e]).

(** The [power] property. *)
Definition power (s : SSD1306) : bool := _power s.

(** ** The frame buffer's window on the byte array

    The frame buffer is given [memoryview(self.buffer)[1:]]: it shares
    the store of [self.buffer] and its index [i] is index [i + 1] of the
    array.  A memoryview cannot be resized, and an index outside it
    raises ([None]). *)

Definition view_len (b : list Z) : nat := (length b - 1)%nat.

Definition view_get (b : list Z) (i : nat) : option Z := b !! S i.

Definition view_set (b : list Z) (i : nat) (v : Z) : option (list Z) :=
  if decide (S i < length b)%nat then Some (<[S i := v]> b) else None.

(** ** SSD1306_I2C: the two bus primitives (lines 176-187) *)

Definition write_cmd (s : SSD1306) (cmd : Z) : SSD1306 :=
  emit s (I2CWrite (addr s) 0x80 cmd).

Definition write_framebuf (s : SSD1306) : SSD1306 :=
  foldl (fun s i => emit s (I2CWrite (addr s) 0x40 i)) s (drop 1 (buffer s)).

(** ** Frame buffer operations *)

(** Modelled from the spec: the module [framebuf] (class FrameBuffer, the
    base class of [_SSD1306]) is not part of the source; section 4.1 gives
    [fill(color)]: every byte of the pixel buffer becomes 0x00 or 0xFF.
    Colour 0 clears, any other colour sets.  The bytes are written one by
    one through the memoryview. *)
Definition fill_bytes (b : list Z) (v : Z) : list Z :=
  foldl (fun acc i => <[S i := v]> acc) b (seq 0 (view_len b)).

Definition fill (s : SSD1306) (color : Z) : SSD1306 :=
  set_buffer s (fill_bytes (buffer s) (if color =? 0 then 0x00 else 0xFF)).

(** Modelled from the spec: the pixel addressing of [framebuf], section
    4.1: byte index [(y // 8) * width + x], bit [y % 8]. *)
Definition pixel_index (w x y : Z) : Z := (y / 8) * w + x.

Definition pixel_bit (y : Z) : Z := y mod 8.

Definition in_bounds (s : SSD1306) (x y : Z) : bool :=
  (0 <=? x) && (x <? width s) && (0 <=? y) && (y <? height s).

(** Modelled from the spec: [set(x, y, color)] of section 4.1 (the pixel
    write of [framebuf], not part of the source).  Coordinates outside the
    geometry are rejected; the target bit is set for a colour other than 0
    and cleared for colour 0. *)
Definition set_pixel (s : SSD1306) (x y color : Z) : option SSD1306 :=
  if in_bounds s x y then
    let i := Z.to_nat (pixel_index (width s) x y) in
    b ← view_get (buffer s) i;
    let b' := if color =? 0
              then Z.land b (Z.lnot (Z.shiftl 1 (pixel_bit y)))
              else Z.lor b (Z.shiftl 1 (pixel_bit y)) in
    buf ← view_set (buffer s) i b';
    Some (set_buffer s buf)
  else None.

(** Modelled from the spec: [get(x, y)] of section 4.1 (the pixel read of
    [framebuf], not part of the source); returns 0 or 1. *)
Definition get_pixel (s : SSD1306) (x y : Z) : option Z :=
  if in_bounds s x y then
    b ← view_get (buffer s) (Z.to_nat (pixel_index (width s) x y));
    Some (Z.land (Z.shiftr b (pixel_bit y)) 1)
  else None.

(** Modelled from the spec: [serialize()] of section 4.1, the pixel bytes
    in storage order; in the source it is the slice [self.buffer[1:]]. *)
Definition serialize (s : SSD1306) : list Z := drop 1 (buffer s).

(** ** _SSD1306 (lines 51-142) *)

Definition show (s : SSD1306) : SSD1306 :=
  let xpos0 := 0 in
  let xpos1 := width s - 1 in
  let '(xpos0, xpos1) :=
    if width s =? 64 then (xpos0 + 32, xpos1 + 32) else (xpos0, xpos1) in
  let '(xpos0, xpos1) :=
    if width s =? 72 then (xpos0 + 28, xpos1 + 28) else (xpos0, xpos1) in
  let s := write_cmd s SET_COL_ADDR in
  let s := write_cmd s xpos0 in
  let s := write_cmd s xpos1 in
  let s := write_cmd s SET_PAGE_ADDR in
  let s := write_cmd s 0 in
  let s := write_cmd s (pages s - 1) in
  write_framebuf s.

(** The tuple iterated by [init_display]. *)
Definition init_cmds (s : SSD1306) : list Z :=
  [ Z.lor SET_DISP 0x00;
    SET_MEM_ADDR;
    0x00;
    Z.lor SET_DISP_START_LINE 0x00;
    Z.lor SET_SEG_REMAP 0x01;
    SET_MUX_RATIO;
    height s - 1;
    Z.lor SET_COM_OUT_DIR 0x08;
    SET_DISP_OFFSET;
    0x00;
    SET_COM_PIN_CFG;
    if (height s =? 32) || (height s =? 16) then 0x02 else 0x12;
    SET_DISP_CLK_DIV;
    0x80;
    SET_PRECHARGE;
    if external_vcc s then 0x22 else 0xF1;
    SET_VCOM_DESEL;
    0x30;
    SET_CONTRAST;
    0xFF;
    SET_ENTIRE_ON;
    SET_NORM_INV;
    SET_CHARGE_PUMP;
    if external_vcc s then 0x10 else 0x14;
    Z.lor SET_DISP 0x01 ].

Definition init_display (s : SSD1306) : SSD1306 :=
  let s := foldl write_cmd s (init_cmds s) in
  let s := if width s =? 72
           then write_cmd (write_cmd s 0xAD) 0x30
           else s in
  let s := fill s 0 in
  show s.

Definition poweroff (s : SSD1306) : SSD1306 :=
  set_power (write_cmd s (Z.lor SET_DISP 0x00)) false.

Definition contrast (s : SSD1306) (c : Z) : SSD1306 :=
  write_cmd (write_cmd s SET_CONTRAST) c.

Definition invert (s : SSD1306) (inv : Z) : SSD1306 :=
  write_cmd s (Z.lor SET_NORM_INV (Z.land inv 1)).

Definition poweron (s : SSD1306) : SSD1306 :=
  let s := match reset_pin s with
           | Some p =>
               let s := emit s (PinValue p true) in
               let s := emit s (Sleep 1000) in
               let s := emit s (PinValue p false) in
               let s := emit s (Sleep 10000) in
               let s := emit s (PinValue p true) in
               emit s (Sleep 10000)
           | None => s
           end in
  set_power (write_cmd s (Z.lor SET_DISP 0x01)) true.

(** ** Constructors (lines 31-44 and 156-174) *)

(** [_SSD1306.__init__]; [i2c] is the history of the bus handle so far. *)
Definition _SSD1306_init (a : Z) (i2c : list event) (buf : list Z)
    (w h : Z) (vcc : bool) (reset : option pin) : SSD1306 :=
  let s := mkSSD1306 a buf w h vcc reset (h / 8) false i2c in
  let s := match reset with
           | Some p => emit s (SwitchToOutput p false)
           | None => s
           end in
  init_display (poweron s).

(** [SSD1306_I2C.__init__].  [bytearray(n)] raises for a negative [n], and
    the store to index 0 raises on an empty array. *)
Definition SSD1306_I2C_init (w h : Z) (i2c : list event) (a : Z)
    (vcc : bool) (reset : option pin) : option SSD1306 :=
  let n := (h / 8) * w + 1 in
  if n <? 0 then None
  else
    let buf := replicate (Z.to_nat n) 0 in
    if decide (0 < length buf)%nat
    then Some (_SSD1306_init a i2c (<[0%nat := 0x40]> buf) w h vcc reset)
    else None.

(** The default of the keyword argument [addr]. *)
Definition default_addr : Z := 0x3C.

(** ** The caller-facing operations as a machine *)

Inductive op : Type :=
  | OpSetPixel (x y color : Z)
  | OpFill (color : Z)
  | OpShow
  | OpContrast (c : Z)
  | OpInvert (inv : Z)
  | OpPoweroff
  | OpPoweron
  | OpInitDisplay.

Definition step (s : SSD1306) (o : op) : option SSD1306 :=
  match o with
  | OpSetPixel x y c => set_pixel s x y c
  | OpFill c => Some (fill s c)
  | OpShow => Some (show s)
  | OpContrast c => Some (contrast s c)
  | OpInvert i => Some (invert s i)
  | OpPoweroff => Some (poweroff s)
  | OpPoweron => Some (poweron s)
  | OpInitDisplay => Some (init_display s)
  end.

Fixpoint run (s : SSD1306) (ops : list op) : option SSD1306 :=
  match ops with
  | [] => Some s
  | o :: ops' => s' ← step s o; run s' ops'
  end.

(** The command bytes and the data bytes of a history, in order. *)
Definition cmds_of (l : list event) : list Z :=
  omap (fun e => match e with
                 | I2CWrite _ c v => if c =? 0x80 then Some v else None
                 | _ => None
                 end) l.

Definition data_of (l : list event) : list Z :=
  omap (fun e => match e with
                 | I2CWrite _ c v => if c =? 0x40 then Some v else None
                 | _ => None
                 end) l.

(** The events a call appended: the history after it, without the history
    before it. *)
Definition sent (before after : SSD1306) : list event :=
  drop (length (bus before)) (bus after).

(** ** Column window of section 4.2, in the spec's words *)

Definition col_offset (w : Z) : Z :=
  if w =? 64 then 32 else if w =? 72 then 28 else 0.

Definition col_window (w : Z) : Z * Z := (0 + col_offset w, w - 1 + col_offset w).

(** A command write and a data write of driver [s]. *)
Definition cmd_ev (s : SSD1306) (c : Z) : event := I2CWrite (addr s) 0x80 c.
Definition data_ev (s : SSD1306) (d : Z) : event := I2CWrite (addr s) 0x40 d.

(** The two extra commands of the 72-pixel panel. *)
Definition extra_cmds (w : Z) : list Z :=
  if w =? 72 then [0xAD; 0x30] else [].

(** ** What no operation changes *)

(** A bus write to address [a] framed as a command or as data. *)
Definition framed (a : Z) (e : event) : Prop :=
  match e with
  | I2CWrite a' c _ => a' = a /\ (c = 0x80 \/ c = 0x40)
  | _ => True
  end.

(** [stable s s']: going from [s] to [s'] kept the address, the geometry,
    the length of the byte array and its byte 0, and only appended
    well-framed events to the history. *)
Record stable (s s' : SSD1306) : Prop := mkStable {
  st_addr : addr s' = addr s;
  st_width : width s' = width s;
  st_height : height s' = height s;
  st_pages : pages s' = pages s;
  st_vcc : external_vcc s' = external_vcc s;
  st_reset : reset_pin s' = reset_pin s;
  st_len : length (buffer s') = length (buffer s);
  st_head : buffer s' !! 0%nat = buffer s !! 0%nat;
  st_bus : exists l, bus s' = bus s ++ l /\ Forall (framed (addr s)) l
}.

(** ** Drivers in use *)

(** A driver built by [SSD1306_I2C] and then used through [ops]. *)
Definition drive (w h : Z) (i2c : list event) (a : Z) (vcc : bool)
    (reset : option pin) (ops : list op) : option SSD1306 :=
  s ← SSD1306_I2C_init w h i2c a vcc reset; run s ops.

(** The call that leaves every keyword argument at its default. *)
Definition SSD1306_I2C_default (w h : Z) (i2c : list event) : option SSD1306 :=
  SSD1306_I2C_init w h i2c default_addr false None.

(** ** Power control *)

(** What [poweron] does to the reset line. *)
Definition reset_pulse (r : option pin) : list event :=
  match r with
  | Some p => [PinValue p true; Sleep 1000; PinValue p false; Sleep 10000;
               PinValue p true; Sleep 10000]
  | None => []
  end.

(** Occurrences of a byte pattern as a contiguous run of a byte list. *)
Fixpoint starts_with (pat l : list Z) : bool :=
  match pat, l with
  | [], _ => true
  | _ :: _, [] => false
  | p :: pat', x :: l' => (p =? x) && starts_with pat' l'
  end.

Fixpoint occurrences (pat l : list Z) : nat :=
  match l with
  | [] => if starts_with pat [] then 1%nat else 0%nat
  | _ :: l' => ((if starts_with pat l then 1 else 0) + occurrences pat l')%nat
  end.

(** The geometry and the size of the byte array agree. *)
Definition well_sized (s : SSD1306) : Prop :=
  height s mod 8 = 0
  /\ Z.of_nat (length (buffer s)) = (height s / 8) * width s + 1.

(** ** The base class and the dispatch of the bus primitives

    [_SSD1306] calls [self.write_cmd] and [self.write_framebuf]; its own
    versions of the two (lines 104-110) raise NotImplementedError and
    [SSD1306_I2C] overrides them.  The methods of the base class are given
    here over a table of the two primitives, with the exception made
    explicit. *)

Inductive exn : Type := NotImplementedError.

(** A method returns with the object updated, or raises with the object
    (and the history of the outside world in it) as it was at that point. *)
Inductive outcome : Type :=
  | Returned (s : SSD1306)
  | Raised (e : exn) (s : SSD1306).

Definition and_then (r : outcome) (k : SSD1306 -> outcome) : outcome :=
  match r with
  | Returned s => k s
  | Raised e s => Raised e s
  end.

Record bus_methods : Type := mkMethods {
  m_write_cmd : SSD1306 -> Z -> outcome;
  m_write_framebuf : SSD1306 -> outcome
}.

(** [_SSD1306.write_cmd] and [_SSD1306.write_framebuf] (lines 104-110). *)
Definition base_methods : bus_methods :=
  mkMethods (fun s _ => Raised NotImplementedError s)
            (fun s => Raised NotImplementedError s).

(** The overrides of [SSD1306_I2C] (lines 176-187). *)
Definition i2c_methods : bus_methods :=
  mkMethods (fun s c => Returned (write_cmd s c))
            (fun s => Returned (write_framebuf s)).

(** A subclass that overrides [write_cmd] as [SSD1306_I2C] does and
    inherits [write_framebuf] from the base class. *)
Definition cmd_only_methods : bus_methods :=
  mkMethods (m_write_cmd i2c_methods) (m_write_framebuf base_methods).

Definition base_write_cmds (T : bus_methods) (s : SSD1306) (l : list Z)
    : outcome :=
  foldl (fun r c => and_then r (fun s => m_write_cmd T s c)) (Returned s) l.

Definition base_show (T : bus_methods) (s : SSD1306) : outcome :=
  let xpos0 := 0 in
  let xpos1 := width s - 1 in
  let '(xpos0, xpos1) :=
    if width s =? 64 then (xpos0 + 32, xpos1 + 32) else (xpos0, xpos1) in
  let '(xpos0, xpos1) :=
    if width s =? 72 then (xpos0 + 28, xpos1 + 28) else (xpos0, xpos1) in
  and_then (m_write_cmd T s SET_COL_ADDR) (fun s =>
  and_then (m_write_cmd T s xpos0) (fun s =>
  and_then (m_write_cmd T s xpos1) (fun s =>
  and_then (m_write_cmd T s SET_PAGE_ADDR) (fun s =>
  and_then (m_write_cmd T s 0) (fun s =>
  and_then (m_write_cmd T s (pages s - 1)) (fun s =>
  m_write_framebuf T s)))))).

Definition base_init_display (T : bus_methods) (s : SSD1306) : outcome :=
  and_then (base_write_cmds T s (init_cmds s)) (fun s =>
  and_then (if width s =? 72
            then and_then (m_write_cmd T s 0xAD)
                          (fun s => m_write_cmd T s 0x30)
            else Returned s) (fun s =>
  let s := fill s 0 in
  base_show T s)).

Definition base_poweroff (T : bus_methods) (s : SSD1306) : outcome :=
  and_then (m_write_cmd T s (Z.lor SET_DISP 0x00))
           (fun s => Returned (set_power s false)).

Definition base_contrast (T : bus_methods) (s : SSD1306) (c : Z) : outcome :=
  and_then (m_write_cmd T s SET_CONTRAST) (fun s => m_write_cmd T s c).

Definition base_invert (T : bus_methods) (s : SSD1306) (inv : Z) : outcome :=
  m_write_cmd T s (Z.lor SET_NORM_INV (Z.land inv 1)).

Definition base_poweron (T : bus_methods) (s : SSD1306) : outcome :=
  let s := match reset_pin s with
           | Some p =>
               let s := emit s (PinValue p true) in
               let s := emit s (Sleep 1000) in
               let s := emit s (PinValue p false) in
               let s := emit s (Sleep 10000) in
               let s := emit s (PinValue p true) in
               emit s (Sleep 10000)
           | None => s
           end in
  and_then (m_write_cmd T s (Z.lor SET_DISP 0x01))
           (fun s => Returned (set_power s true)).

(** [_SSD1306.__init__] (lines 31-44) over a table of primitives. *)
Definition base_init (T : bus_methods) (a : Z) (i2c : list event)
    (buf : list Z) (w h : Z) (vcc : bool) (reset : option pin) : outcome :=
  let s := mkSSD1306 a buf w h vcc reset (h / 8) false i2c in
  let s := match reset with
           | Some p => emit s (SwitchToOutput p false)
           | None => s
           end in
  and_then (base_poweron T s) (base_init_display T).

(** ** Vocabulary of the further properties *)

(** The value of [power] after a run: the last [poweron] or [poweroff]
    decides, anything else leaves it. *)
Definition power_after (p : bool) (ops : list op) : bool :=
  foldl (fun p o => match o with
                    | OpPoweron => true
                    | OpPoweroff => false
                    | _ => p
                    end) p ops.

(** Events a driver with reset line [r] may cause: bus writes, and, only
    when there is a reset line, actions on that line and the two sleeps
    of the pulse. *)
Definition permitted (r : option pin) (e : event) : Prop :=
  match e with
  | I2CWrite _ _ _ => True
  | SwitchToOutput p v => r = Some p /\ v = false
  | PinValue p _ => r = Some p
  | Sleep us => is_Some r /\ (us = 1000 \/ us = 10000)
  end.

(** A bus write whose value fits in one byte. *)
Definition byte_write (e : event) : Prop :=
  match e with
  | I2CWrite _ _ v => 0 <= v <= 255
  | _ => True
  end.

(** An operation whose argument for the bus, if it has one, fits in one
    byte: [contrast] hands its argument to the bus as it is. *)
Definition byte_op (o : op) : Prop :=
  match o with
  | OpContrast c => 0 <= c <= 255
  | _ => True
  end.

(** A driver whose geometry fits the byte-wide parameters of the
    controller's commands and whose array holds bytes. *)
Definition byte_geometry (s : SSD1306) : Prop :=
  1 <= width s <= 256 /\ 8 <= height s <= 256
  /\ pages s = height s / 8
  /\ Forall (fun b => 0 <= b <= 255) (buffer s).

(** What a construction does to the reset line before [poweron]. *)
Definition reset_setup (r : option pin) : list event :=
  match r with
  | Some p => [SwitchToOutput p false]
  | None => []
  end.

(** * Basic facts about the primitives *)

Example show_128x64 :
  cmds_of (bus (show (mkSSD1306 0x3C [0x40; 7; 9] 128 64 false None 8 true [])))
  = [0x21; 0; 127; 0x22; 0; 7].
Proof. reflexivity. Qed.

Lemma emit_all_eq (c : Z) (l : list Z) (s : SSD1306) :
  foldl (fun s i => emit s (I2CWrite (addr s) c i)) s l
  = set_bus s (bus s ++ map (I2CWrite (addr s) c) l).
Proof.
  revert s. induction l as [|x l IH]; intros [a b w h v r p pw t]; simpl.
  - unfold set_bus; simpl. now rewrite app_nil_r.
  - rewrite IH. unfold set_bus, emit; simpl. now rewrite <- app_assoc.
Qed.

Lemma write_cmds_eq (l : list Z) (s : SSD1306) :
  foldl write_cmd s l = set_bus s (bus s ++ map (cmd_ev s) l).
Proof. exact (emit_all_eq 0x80 l s). Qed.

Lemma write_framebuf_eq (s : SSD1306) :
  write_framebuf s = set_bus s (bus s ++ map (data_ev s) (serialize s)).
Proof. exact (emit_all_eq 0x40 (drop 1 (buffer s)) s). Qed.

Lemma sent_app (s s' : SSD1306) (l : list event) :
  bus s' = bus s ++ l -> sent s s' = l.
Proof. intros E. unfold sent. rewrite E. apply drop_app_length. Qed.

Lemma show_eq (s : SSD1306) :
  show s = set_bus s (bus s
     ++ map (cmd_ev s) [0x21; fst (col_window (width s));
                        snd (col_window (width s)); 0x22; 0; pages s - 1]
     ++ map (data_ev s) (serialize s)).
Proof.
  unfold show, col_window, col_offset.
  destruct (Z.eqb_spec (width s) 64) as [E|N].
  - rewrite E. simpl (64 =? 72). cbv iota beta.
    rewrite write_framebuf_eq. destruct s; simpl in *.
    unfold set_bus, serialize; simpl. now rewrite <- !app_assoc.
  - destruct (Z.eqb_spec (width s) 72) as [E|N'].
    + rewrite write_framebuf_eq. destruct s; simpl in *. subst.
      unfold set_bus, serialize; simpl. now rewrite <- !app_assoc.
    + rewrite write_framebuf_eq. destruct s; simpl in *.
      unfold set_bus, serialize; simpl. rewrite <- !app_assoc. simpl.
      replace (width0 - 1 + 0) with (width0 - 1) by lia. reflexivity.
Qed.

(** Filling through the memoryview leaves byte 0 alone and overwrites
    every other byte. *)
Lemma foldl_insert_seq (v : Z) (t pre : list Z) :
  foldl (fun acc i => <[i := v]> acc) (pre ++ t) (seq (length pre) (length t))
  = pre ++ replicate (length t) v.
Proof.
  revert pre. induction t as [|x t IH]; intros pre; simpl; [done|].
  replace (<[length pre := v]> (pre ++ x :: t)) with ((pre ++ [v]) ++ t).
  - specialize (IH (pre ++ [v])). rewrite length_app in IH. simpl in IH.
    rewrite Nat.add_1_r in IH. rewrite IH. now rewrite <- app_assoc.
  - rewrite <- app_assoc. simpl.
    rewrite <- (Nat.add_0_r (length pre)). now rewrite insert_app_r.
Qed.

Lemma foldl_insert_S (v x : Z) (l : list nat) (t : list Z) :
  foldl (fun acc i => <[S i := v]> acc) (x :: t) l
  = x :: foldl (fun acc i => <[i := v]> acc) t l.
Proof. revert t. induction l as [|i l IH]; intros t; simpl; [done|apply IH]. Qed.

Lemma fill_bytes_eq (b : list Z) (v : Z) :
  fill_bytes b v = take 1 b ++ replicate (length b - 1) v.
Proof.
  unfold fill_bytes, view_len. destruct b as [|x t]; simpl; [done|].
  rewrite Nat.sub_0_r, foldl_insert_S. f_equal.
  exact (foldl_insert_seq v t []).
Qed.

Lemma fill_bytes_length (b : list Z) (v : Z) :
  length (fill_bytes b v) = length b.
Proof.
  rewrite fill_bytes_eq. destruct b; simpl; [done|].
  now rewrite length_replicate, Nat.sub_0_r.
Qed.

Lemma fill_bytes_serialize (b : list Z) (v : Z) :
  drop 1 (fill_bytes b v) = replicate (length (drop 1 b)) v.
Proof.
  rewrite fill_bytes_eq. destruct b; simpl; [done|].
  now rewrite Nat.sub_0_r, drop_0.
Qed.

Lemma fill_bytes_head (b : list Z) (v : Z) :
  fill_bytes b v !! 0%nat = b !! 0%nat.
Proof. rewrite fill_bytes_eq. now destruct b. Qed.

Lemma init_display_eq (s : SSD1306) :
  init_display s
  = set_bus (set_buffer s (fill_bytes (buffer s) 0))
      (bus s
       ++ map (cmd_ev s) (init_cmds s ++ extra_cmds (width s))
       ++ map (cmd_ev s) [0x21; fst (col_window (width s));
                          snd (col_window (width s)); 0x22; 0; pages s - 1]
       ++ map (data_ev s) (replicate (length (serialize s)) 0)).
Proof.
  unfold init_display, extra_cmds. rewrite write_cmds_eq.
  rewrite show_eq. unfold serialize.
  destruct s as [a b w h v r p pw t]; simpl.
  destruct (w =? 72); simpl; rewrite fill_bytes_serialize;
    unfold set_bus, set_buffer; simpl; rewrite <- ?app_assoc; reflexivity.
Qed.

(** * The claims *)

(** C1. [init_display] sends, with control byte 0x80 and in this order,
    the 25 command bytes of steps 1 to 16 of section 4.2 (with the
    parameters chosen by the height and by the external-power flag), then
    0xAD, 0x30 exactly when the width is 72; it then leaves every pixel
    byte 0 and performs one [show]: the six window commands followed by
    the (all zero) pixel bytes as data. *)
Theorem C1_init_display_sequence (s : SSD1306) :
  let X := if (height s =? 32) || (height s =? 16) then 0x02 else 0x12 in
  let Y := if external_vcc s then 0x22 else 0xF1 in
  let Zp := if external_vcc s then 0x10 else 0x14 in
  let zeroed := fill s 0 in
  sent s (init_display s)
  = map (cmd_ev s)
      ([0xAE; 0x20; 0x00; 0x40; 0xA1; 0xA8; height s - 1; 0xC8; 0xD3; 0x00;
        0xDA; X; 0xD5; 0x80; 0xD9; Y; 0xDB; 0x30; 0x81; 0xFF; 0xA4; 0xA6;
        0x8D; Zp; 0xAF]
       ++ (if decide (width s = 72) then [0xAD; 0x30] else []))
    ++ sent zeroed (show zeroed)
  /\ serialize zeroed = replicate (length (serialize s)) 0
  /\ serialize (init_display s) = replicate (length (serialize s)) 0
  /\ buffer (init_display s) !! 0%nat = buffer s !! 0%nat
  /\ length (buffer (init_display s)) = length (buffer s).
Proof.
  intros X Y Zp zeroed.
  assert (Hz : serialize zeroed = replicate (length (serialize s)) 0).
  { unfold zeroed, serialize, fill; simpl. apply fill_bytes_serialize. }
  split; [|split; [exact Hz|]].
  - rewrite (sent_app zeroed (show zeroed)
               (map (cmd_ev s) [0x21; fst (col_window (width s));
                                snd (col_window (width s)); 0x22; 0; pages s - 1]
                ++ map (data_ev s) (replicate (length (serialize s)) 0))).
    + apply sent_app. rewrite init_display_eq. simpl bus.
      f_equal. rewrite map_app, <- app_assoc. f_equal.
      unfold extra_cmds. destruct (Z.eqb_spec (width s) 72) as [E|N];
        destruct (decide (width s = 72)); try contradiction; reflexivity.
    + rewrite show_eq, Hz. reflexivity.
  - rewrite init_display_eq. unfold serialize; simpl.
    split; [apply fill_bytes_serialize|].
    split; [apply fill_bytes_head|apply fill_bytes_length].
Qed.

(** C2. [show] first sends 0x21, xpos0, xpos1 and then 0x22, 0, pages-1,
    all as commands, where the column window is [0, width-1] shifted by 32
    for width 64, by 28 for width 72 and by 0 otherwise; the pixel bytes
    follow as data.  For 128x64 the windows are [0,127] and [0,7], for
    64x48 the column window is [32,95], for 72x40 it is [28,99]. *)
Theorem C2_show_window :
  (forall s : SSD1306,
     let off := if decide (width s = 64) then 32
                else if decide (width s = 72) then 28 else 0 in
     sent s (show s)
     = map (cmd_ev s) [0x21; 0 + off; width s - 1 + off; 0x22; 0; pages s - 1]
       ++ map (data_ev s) (serialize s))
  /\ (forall a b v r pw t,
        let s := mkSSD1306 a b 128 64 v r (64 / 8) pw t in
        take 6 (sent s (show s)) = map (cmd_ev s) [0x21; 0; 127; 0x22; 0; 7])
  /\ (forall a b v r pw t,
        let s := mkSSD1306 a b 64 48 v r (48 / 8) pw t in
        take 6 (sent s (show s)) = map (cmd_ev s) [0x21; 32; 95; 0x22; 0; 5])
  /\ (forall a b v r pw t,
        let s := mkSSD1306 a b 72 40 v r (40 / 8) pw t in
        take 6 (sent s (show s)) = map (cmd_ev s) [0x21; 28; 99; 0x22; 0; 4]).
Proof.
  split; [|repeat split]; intros.
  - apply sent_app. rewrite show_eq. simpl bus. do 2 f_equal.
    unfold col_window, col_offset; simpl.
    destruct (Z.eqb_spec (width s) 64), (decide (width s = 64));
      try contradiction; try reflexivity.
    destruct (Z.eqb_spec (width s) 72), (decide (width s = 72));
      try contradiction; reflexivity.
  - rewrite (sent_app s (show s) _ (f_equal bus (show_eq s))). reflexivity.
  - rewrite (sent_app s (show s) _ (f_equal bus (show_eq s))). reflexivity.
  - rewrite (sent_app s (show s) _ (f_equal bus (show_eq s))). reflexivity.
Qed.

Lemma stable_refl (s : SSD1306) : stable s s.
Proof.
  split; try reflexivity. exists []. split; [now rewrite app_nil_r|constructor].
Qed.

Lemma stable_trans (s1 s2 s3 : SSD1306) :
  stable s1 s2 -> stable s2 s3 -> stable s1 s3.
Proof.
  intros [A1 W1 H1 P1 V1 R1 L1 D1 (l1 & B1 & F1)]
         [A2 W2 H2 P2 V2 R2 L2 D2 (l2 & B2 & F2)].
  split; try congruence.
  exists (l1 ++ l2). split.
  - rewrite B2, B1. now rewrite app_assoc.
  - apply Forall_app. split; [exact F1|]. now rewrite <- A1.
Qed.

Lemma stable_emit (s : SSD1306) (e : event) :
  framed (addr s) e -> stable s (emit s e).
Proof.
  intros F. split; try reflexivity.
  exists [e]. split; [reflexivity|]. now constructor.
Qed.

Lemma stable_write_cmd (s : SSD1306) (c : Z) : stable s (write_cmd s c).
Proof. apply stable_emit. simpl. auto. Qed.

Lemma stable_set_power (s : SSD1306) (p : bool) : stable s (set_power s p).
Proof.
  split; try reflexivity. exists []. split; [simpl; now rewrite app_nil_r|constructor].
Qed.

Lemma framed_cmds (s : SSD1306) (l : list Z) :
  Forall (framed (addr s)) (map (cmd_ev s) l).
Proof. induction l; simpl; constructor; simpl; auto. Qed.

Lemma framed_data (s : SSD1306) (l : list Z) :
  Forall (framed (addr s)) (map (data_ev s) l).
Proof. induction l; simpl; constructor; simpl; auto. Qed.

Lemma stable_show (s : SSD1306) : stable s (show s).
Proof.
  rewrite show_eq. split; try reflexivity.
  eexists. split; [reflexivity|].
  apply Forall_app. split; [apply framed_cmds|apply framed_data].
Qed.

Lemma stable_fill (s : SSD1306) (c : Z) : stable s (fill s c).
Proof.
  split; try reflexivity; simpl.
  - apply fill_bytes_length.
  - apply fill_bytes_head.
  - exists []. split; [now rewrite app_nil_r|constructor].
Qed.

Lemma stable_init_display (s : SSD1306) : stable s (init_display s).
Proof.
  rewrite init_display_eq. split; try reflexivity.
  - apply fill_bytes_length.
  - apply fill_bytes_head.
  - eexists. split; [reflexivity|].
    apply Forall_app; split; [apply framed_cmds|].
    apply Forall_app; split; [apply framed_cmds|apply framed_data].
Qed.

Lemma stable_poweroff (s : SSD1306) : stable s (poweroff s).
Proof.
  unfold poweroff.
  eapply stable_trans; [apply stable_write_cmd|apply stable_set_power].
Qed.

Lemma stable_contrast (s : SSD1306) (c : Z) : stable s (contrast s c).
Proof.
  unfold contrast. eapply stable_trans; apply stable_write_cmd.
Qed.

Lemma stable_invert (s : SSD1306) (i : Z) : stable s (invert s i).
Proof. apply stable_write_cmd. Qed.

Lemma stable_poweron (s : SSD1306) : stable s (poweron s).
Proof.
  unfold poweron.
  eapply stable_trans; [|eapply stable_trans;
                           [apply stable_write_cmd|apply stable_set_power]].
  destruct (reset_pin s) as [p|]; [|apply stable_refl].
  repeat (eapply stable_trans; [|apply stable_emit; exact I]).
  apply stable_refl.
Qed.

Lemma stable_set_pixel (s s' : SSD1306) (x y c : Z) :
  set_pixel s x y c = Some s' -> stable s s'.
Proof.
  unfold set_pixel, view_set. intros H.
  destruct (in_bounds s x y); [|discriminate].
  destruct (view_get _ _) as [b|]; [|discriminate]. simpl in H.
  destruct (decide _); [|discriminate]. simpl in H.
  injection H as <-. split; try reflexivity; simpl.
  - apply length_insert.
  - now apply list_lookup_insert_ne.
  - exists []. split; [now rewrite app_nil_r|constructor].
Qed.

Lemma stable_step (s s' : SSD1306) (o : op) :
  step s o = Some s' -> stable s s'.
Proof.
  destruct o; simpl; intros H;
    try (injection H as <-);
    eauto using stable_set_pixel, stable_fill, stable_show, stable_contrast,
      stable_invert, stable_poweroff, stable_poweron, stable_init_display.
Qed.

Lemma stable_run (ops : list op) (s s' : SSD1306) :
  run s ops = Some s' -> stable s s'.
Proof.
  revert s. induction ops as [|o ops IH]; simpl; intros s H.
  - injection H as <-. apply stable_refl.
  - destruct (step s o) as [s1|] eqn:E; [|discriminate]. simpl in H.
    eapply stable_trans; [eapply stable_step, E|apply IH, H].
Qed.

Lemma _SSD1306_init_stable a i2c buf w h vcc reset :
  stable (mkSSD1306 a buf w h vcc reset (h / 8) false i2c)
         (_SSD1306_init a i2c buf w h vcc reset).
Proof.
  unfold _SSD1306_init.
  eapply stable_trans; [|eapply stable_trans;
                           [apply stable_poweron|apply stable_init_display]].
  destruct reset; [apply stable_emit; exact I|apply stable_refl].
Qed.

Lemma SSD1306_I2C_init_total w h i2c a vcc reset :
  0 <= (h / 8) * w -> is_Some (SSD1306_I2C_init w h i2c a vcc reset).
Proof.
  intros Hn. unfold SSD1306_I2C_init.
  destruct (Z.ltb_spec ((h / 8) * w + 1) 0); [lia|].
  destruct (decide _) as [|N]; [eauto|].
  rewrite length_replicate in N. lia.
Qed.

Lemma SSD1306_I2C_init_spec w h i2c a vcc reset s :
  SSD1306_I2C_init w h i2c a vcc reset = Some s ->
  addr s = a /\ width s = w /\ height s = h /\ pages s = h / 8
  /\ external_vcc s = vcc /\ reset_pin s = reset
  /\ Z.of_nat (length (buffer s)) = (h / 8) * w + 1
  /\ buffer s !! 0%nat = Some 0x40
  /\ exists l, bus s = i2c ++ l /\ Forall (framed a) l.
Proof.
  unfold SSD1306_I2C_init.
  destruct (Z.ltb_spec ((h / 8) * w + 1) 0) as [|Hn]; [discriminate|].
  destruct (decide _) as [Hl|]; [|discriminate].
  intros [= <-].
  destruct (_SSD1306_init_stable a i2c
              (<[0%nat := 0x40]> (replicate (Z.to_nat ((h / 8) * w + 1)) 0))
              w h vcc reset) as [A W H P V R L D B].
  simpl in *. repeat split; try assumption.
  - rewrite L, length_insert, length_replicate. lia.
  - rewrite D. now apply list_lookup_insert_eq.
Qed.

(** The invariant of every driver that was built and then used. *)
Lemma drive_spec w h i2c a vcc reset ops s :
  drive w h i2c a vcc reset ops = Some s ->
  addr s = a /\ width s = w /\ height s = h /\ pages s = h / 8
  /\ external_vcc s = vcc /\ reset_pin s = reset
  /\ Z.of_nat (length (buffer s)) = (h / 8) * w + 1
  /\ buffer s !! 0%nat = Some 0x40
  /\ exists l, bus s = i2c ++ l /\ Forall (framed a) l.
Proof.
  unfold drive. destruct (SSD1306_I2C_init _ _ _ _ _ _) as [s0|] eqn:E;
    [|discriminate]. simpl. intros Hr.
  apply SSD1306_I2C_init_spec in E.
  destruct E as (A & W & H & P & V & R & L & D & l0 & B0 & F0).
  destruct (stable_run _ _ _ Hr) as [A' W' H' P' V' R' L' D' (l & B & F)].
  repeat split; try congruence.
  exists (l0 ++ l). split.
  - rewrite B, B0. now rewrite app_assoc.
  - apply Forall_app. split; [exact F0|]. now rewrite <- A.
Qed.

Lemma data_of_cmds (s : SSD1306) (l : list Z) : data_of (map (cmd_ev s) l) = [].
Proof. induction l; simpl; [done|exact IHl]. Qed.

Lemma data_of_data (s : SSD1306) (l : list Z) : data_of (map (data_ev s) l) = l.
Proof. induction l; simpl; [done|now f_equal]. Qed.

Lemma cmds_of_cmds (s : SSD1306) (l : list Z) : cmds_of (map (cmd_ev s) l) = l.
Proof. induction l; simpl; [done|now f_equal]. Qed.

Lemma cmds_of_data (s : SSD1306) (l : list Z) : cmds_of (map (data_ev s) l) = [].
Proof. induction l; simpl; [done|exact IHl]. Qed.

Lemma data_of_app (l1 l2 : list event) :
  data_of (l1 ++ l2) = data_of l1 ++ data_of l2.
Proof. apply omap_app. Qed.

Lemma cmds_of_app (l1 l2 : list event) :
  cmds_of (l1 ++ l2) = cmds_of l1 ++ cmds_of l2.
Proof. apply omap_app. Qed.

Lemma show_sent (s : SSD1306) :
  sent s (show s)
  = map (cmd_ev s) [0x21; fst (col_window (width s));
                    snd (col_window (width s)); 0x22; 0; pages s - 1]
    ++ map (data_ev s) (serialize s).
Proof. apply sent_app. now rewrite show_eq. Qed.

Lemma show_data (s : SSD1306) : data_of (sent s (show s)) = serialize s.
Proof.
  rewrite show_sent, data_of_app, data_of_cmds, data_of_data. reflexivity.
Qed.

Lemma show_buffer (s : SSD1306) : buffer (show s) = buffer s.
Proof. now rewrite show_eq. Qed.

(** C3. For a driver that was built and then used in any way: after the
    six window commands [show] sends, as data and in storage order, the
    pixel bytes and nothing else; they are pages x width many; the byte of
    page [p] and column [x] is sent at position [p * width + x]; and a
    second [show] sends the same bytes again. *)
Theorem C3_show_streams_buffer w h i2c a vcc reset ops (s : SSD1306)
    (Hs : drive w h i2c a vcc reset ops = Some s) :
  drop 6 (sent s (show s)) = map (data_ev s) (serialize s)
  /\ data_of (sent s (show s)) = serialize s
  /\ Z.of_nat (length (serialize s)) = pages s * width s
  /\ (forall p x, 0 <= p < pages s -> 0 <= x < width s ->
        is_Some (serialize s !! Z.to_nat (p * width s + x))
        /\ data_of (sent s (show s)) !! Z.to_nat (p * width s + x)
           = view_get (buffer s) (Z.to_nat (pixel_index (width s) x (8 * p))))
  /\ serialize (show s) = serialize s
  /\ data_of (sent (show s) (show (show s))) = data_of (sent s (show s)).
Proof.
  destruct (drive_spec _ _ _ _ _ _ _ _ Hs)
    as (A & W & H & P & V & R & L & D & _).
  assert (Hlen : Z.of_nat (length (serialize s)) = pages s * width s).
  { unfold serialize. rewrite length_drop. rewrite P, W. pose proof (lookup_lt_Some _ _ _ D). lia. }
  split; [rewrite show_sent; reflexivity|].
  split; [apply show_data|].
  split; [exact Hlen|].
  split; [|split].
  - intros p x Hp Hx.
    assert (0 <= p * width s + x < pages s * width s) by nia.
    split.
    + apply lookup_lt_is_Some. lia.
    + rewrite show_data. unfold serialize, view_get, pixel_index.
      rewrite lookup_drop. f_equal.
      replace (8 * p / 8) with p by (rewrite Z.mul_comm, Z.div_mul; lia).
      reflexivity.
  - unfold serialize. now rewrite show_buffer.
  - rewrite !show_data. unfold serialize. now rewrite show_buffer.
Qed.

Lemma C3_witness :
  exists s, drive 8 16 [] 0x3C false None [OpSetPixel 1 9 1; OpShow] = Some s
            /\ data_of (sent s (show s)) = serialize s.
Proof.
  eexists. split; [vm_compute; reflexivity|].
  apply (C3_show_streams_buffer 8 16 [] 0x3C false None
           [OpSetPixel 1 9 1; OpShow]).
  vm_compute. reflexivity.
Defined.

(** C9. The byte array of a driver that was built and then used in any
    way has length (height // 8) * width + 1 and byte 0 equal to 0x40; no
    operation changes that length or that byte; and the data bytes of a
    [show] are the array without byte 0, pages x width bytes. *)
Theorem C9_framing_byte_invariant w h i2c a vcc reset ops (s : SSD1306)
    (Hs : drive w h i2c a vcc reset ops = Some s) :
  Z.of_nat (length (buffer s)) = (h / 8) * w + 1
  /\ buffer s !! 0%nat = Some 0x40
  /\ (forall o s', step s o = Some s' ->
        length (buffer s') = length (buffer s)
        /\ buffer s' !! 0%nat = Some 0x40)
  /\ data_of (sent s (show s)) = drop 1 (buffer s)
  /\ Z.of_nat (length (data_of (sent s (show s)))) = pages s * width s.
Proof.
  destruct (drive_spec _ _ _ _ _ _ _ _ Hs)
    as (A & W & H & P & V & R & L & D & _).
  split; [exact L|]. split; [exact D|]. split; [|split].
  - intros o s' Ho. destruct (stable_step _ _ _ Ho).
    split; congruence.
  - apply show_data.
  - rewrite show_data. unfold serialize. rewrite length_drop, P, W.
    pose proof (lookup_lt_Some _ _ _ D). lia.
Qed.

Lemma C9_witness :
  exists s, drive 8 16 [] 0x3C false None [OpFill 1; OpSetPixel 7 15 0] = Some s
            /\ buffer s !! 0%nat = Some 0x40.
Proof.
  eexists. split; [vm_compute; reflexivity|].
  apply (C9_framing_byte_invariant 8 16 [] 0x3C false None
           [OpFill 1; OpSetPixel 7 15 0]).
  vm_compute. reflexivity.
Defined.

(** C10. Every bus write of a driver that was built with address [a] and
    then used in any way goes to [a], with control byte 0x80 or 0x40;
    [write_cmd] frames its byte with 0x80 and [write_framebuf] frames each
    pixel byte with 0x40; the address left at its default is 0x3C. *)
Theorem C10_bus_framing w h i2c a vcc reset ops (s : SSD1306)
    (Hs : drive w h i2c a vcc reset ops = Some s) :
  addr s = a
  /\ (exists l, bus s = i2c ++ l /\ Forall (framed a) l)
  /\ (forall c, sent s (write_cmd s c) = [I2CWrite a 0x80 c])
  /\ sent s (write_framebuf s) = map (I2CWrite a 0x40) (serialize s)
  /\ SSD1306_I2C_default w h i2c = SSD1306_I2C_init w h i2c 0x3C false None.
Proof.
  destruct (drive_spec _ _ _ _ _ _ _ _ Hs)
    as (A & W & H & P & V & R & L & D & B).
  split; [exact A|]. split; [exact B|]. split; [|split].
  - intros c. apply sent_app. simpl. now rewrite A.
  - apply sent_app. rewrite write_framebuf_eq. simpl.
    unfold data_ev. now rewrite A.
  - reflexivity.
Qed.

Lemma C10_witness :
  exists s, drive 8 8 [] default_addr true (Some 4%nat) [OpInvert 1; OpShow] = Some s
            /\ addr s = 0x3C.
Proof.
  eexists. split; [vm_compute; reflexivity|].
  apply (C10_bus_framing 8 8 [] default_addr true (Some 4%nat)
           [OpInvert 1; OpShow]).
  vm_compute. reflexivity.
Defined.

Lemma poweron_eq (s : SSD1306) :
  poweron s
  = set_power (set_bus s (bus s ++ reset_pulse (reset_pin s)
                                ++ [cmd_ev s 0xAF])) true.
Proof.
  unfold poweron. destruct s as [a b w h v [p|] pg pw t]; simpl.
  - unfold set_power, set_bus; simpl. now rewrite <- !app_assoc.
  - reflexivity.
Qed.

Lemma poweroff_eq (s : SSD1306) :
  poweroff s = set_power (set_bus s (bus s ++ [cmd_ev s 0xAE])) false.
Proof. reflexivity. Qed.

Lemma cmds_of_reset_pulse (r : option pin) : cmds_of (reset_pulse r) = [].
Proof. now destruct r. Qed.

Lemma data_of_reset_pulse (r : option pin) : data_of (reset_pulse r) = [].
Proof. now destruct r. Qed.

(** The command bytes a construction sends. *)
Lemma construction_cmds w h i2c a vcc reset s :
  SSD1306_I2C_init w h i2c a vcc reset = Some s ->
  cmds_of (drop (length i2c) (bus s))
  = [0xAF] ++ init_cmds s ++ extra_cmds w
    ++ [0x21; fst (col_window w); snd (col_window w); 0x22; 0; h / 8 - 1].
Proof.
  unfold SSD1306_I2C_init.
  destruct (_ <? 0); [discriminate|]. destruct (decide _); [|discriminate].
  intros [= <-]. unfold _SSD1306_init.
  rewrite init_display_eq, poweron_eq. cbn [bus set_bus set_buffer set_power].
  destruct reset as [p|]; cbn [emit bus set_bus reset_pin reset_pulse];
    rewrite <- ?app_assoc, drop_app_length;
    rewrite ?cmds_of_app, cmds_of_data, !cmds_of_cmds, app_nil_r;
    reflexivity.
Qed.

Lemma init_cmds_once (h1 X Y Zp x0 x1 p1 : Z) (extra : list Z) :
  extra = [] \/ extra = [0xAD; 0x30] ->
  let pat := [0xAE; 0x20; 0x00; 0x40; 0xA1; 0xA8; h1; 0xC8; 0xD3; 0x00; 0xDA;
              X; 0xD5; 0x80; 0xD9; Y; 0xDB; 0x30; 0x81; 0xFF; 0xA4; 0xA6;
              0x8D; Zp; 0xAF] in
  occurrences pat ([0xAF] ++ pat ++ extra
                   ++ [0x21; x0; x1; 0x22; 0; p1] ++ [0xAE; 0xAF]) = 1%nat.
Proof.
  intros [-> | ->]; cbn; rewrite ?Z.eqb_refl, ?andb_false_r; reflexivity.
Qed.

Lemma extra_cmds_cases (w : Z) :
  extra_cmds w = [] \/ extra_cmds w = [0xAD; 0x30].
Proof. unfold extra_cmds. destruct (w =? 72); auto. Qed.

Lemma init_cmds_stable (s s' : SSD1306) :
  stable s s' -> init_cmds s' = init_cmds s.
Proof. intros [_ _ H _ V _ _ _ _]. unfold init_cmds. now rewrite H, V. Qed.

Lemma power_cycle_sent (s : SSD1306) :
  sent s (poweron (poweroff s))
  = [cmd_ev s 0xAE] ++ reset_pulse (reset_pin s) ++ [cmd_ev s 0xAF].
Proof.
  apply sent_app. rewrite poweron_eq, poweroff_eq. simpl.
  now rewrite <- app_assoc.
Qed.

(** C4. [poweroff] sends the one command byte 0xAE and makes [power]
    false; [poweron] sends the one command byte 0xAF, after the reset
    pulse when there is a reset line, and makes [power] true.  A
    [poweroff] followed by a [poweron] sends the commands 0xAE, 0xAF and
    nothing of the initialization sequence; over construction followed by
    such a pair the initialization sequence occurs exactly once in the
    commands sent. *)
Theorem C4_power_cycle :
  (forall s : SSD1306,
     sent s (poweroff s) = [cmd_ev s 0xAE]
     /\ power (poweroff s) = false
     /\ sent s (poweron s) = reset_pulse (reset_pin s) ++ [cmd_ev s 0xAF]
     /\ cmds_of (sent s (poweron s)) = [0xAF]
     /\ data_of (sent s (poweron s)) = []
     /\ power (poweron s) = true
     /\ cmds_of (sent s (poweron (poweroff s))) = [0xAE; 0xAF]
     /\ occurrences (init_cmds s) (cmds_of (sent s (poweron (poweroff s))))
        = 0%nat)
  /\ (forall w h i2c a vcc reset s,
        drive w h i2c a vcc reset [OpPoweroff; OpPoweron] = Some s ->
        power s = true
        /\ occurrences (init_cmds s) (cmds_of (drop (length i2c) (bus s)))
           = 1%nat).
Proof.
  split.
  - intros s.
    assert (Hon : sent s (poweron s)
                  = reset_pulse (reset_pin s) ++ [cmd_ev s 0xAF]).
    { apply sent_app. now rewrite poweron_eq. }
    assert (Hpair : cmds_of (sent s (poweron (poweroff s))) = [0xAE; 0xAF]).
    { rewrite power_cycle_sent, !cmds_of_app, cmds_of_reset_pulse.
      reflexivity. }
    split; [apply sent_app; reflexivity|]. split; [reflexivity|].
    split; [|split; [|split; [|split; [reflexivity|split]]]].
    + exact Hon.
    + rewrite Hon, cmds_of_app, cmds_of_reset_pulse. reflexivity.
    + rewrite Hon, data_of_app, data_of_reset_pulse. reflexivity.
    + exact Hpair.
    + rewrite Hpair. reflexivity.
  - intros w h i2c a vcc reset s. unfold drive.
    destruct (SSD1306_I2C_init _ _ _ _ _ _) as [s0|] eqn:E; [|discriminate].
    simpl. intros [= <-]. split; [reflexivity|].
    pose proof (construction_cmds _ _ _ _ _ _ _ E) as Hc.
    destruct (SSD1306_I2C_init_spec _ _ _ _ _ _ _ E)
      as (_ & _ & _ & _ & _ & _ & _ & _ & l0 & B0 & _).
    pose proof (power_cycle_sent s0) as Hp. unfold sent in Hp.
    assert (Hb : bus (poweron (poweroff s0))
                 = bus s0 ++ sent s0 (poweron (poweroff s0))).
    { rewrite power_cycle_sent, poweron_eq, poweroff_eq. simpl.
      now rewrite <- app_assoc. }
    rewrite Hb, B0, <- app_assoc, drop_app_length, cmds_of_app.
    rewrite B0, drop_app_length in Hc. rewrite Hc.
    rewrite power_cycle_sent, !cmds_of_app, cmds_of_reset_pulse.
    rewrite (init_cmds_stable s0 (poweron (poweroff s0)))
      by (eapply stable_trans; [apply stable_poweroff|apply stable_poweron]).
    unfold init_cmds. rewrite <- !app_assoc.
    apply (init_cmds_once _ _ _ _ _ _ _ _ (extra_cmds_cases w)).
Qed.

Lemma C4_witness :
  exists s, drive 8 16 [] 0x3C false None [OpPoweroff; OpPoweron] = Some s
            /\ occurrences (init_cmds s) (cmds_of (drop 0 (bus s))) = 1%nat.
Proof.
  eexists. split; [vm_compute; reflexivity|].
  apply (proj2 C4_power_cycle 8 16 [] 0x3C false None).
  vm_compute. reflexivity.
Defined.

(** C5. With a reset line [p], [poweron] drives the line high, waits
    1 ms, drives it low, waits 10 ms, drives it high, waits 10 ms and only
    then sends the display-on command; so the line is held low for at
    least 1 ms and then high for at least 10 ms before 0xAF.  A
    construction first switches the line to an output at level low and
    then does the same. *)
Theorem C5_reset_pulse w h i2c a vcc (p : pin) (s : SSD1306)
    (Hs : SSD1306_I2C_init w h i2c a vcc (Some p) = Some s) :
  take 8 (drop (length i2c) (bus s))
  = [SwitchToOutput p false;
     PinValue p true; Sleep 1000; PinValue p false; Sleep 10000;
     PinValue p true; Sleep 10000; I2CWrite a 0x80 0xAF]
  /\ (forall s' : SSD1306, reset_pin s' = Some p ->
        sent s' (poweron s')
        = [PinValue p true; Sleep 1000; PinValue p false; Sleep 10000;
           PinValue p true; Sleep 10000; cmd_ev s' 0xAF]
        /\ exists pre low high,
             sent s' (poweron s')
             = pre ++ [PinValue p false; Sleep low; PinValue p true;
                       Sleep high; cmd_ev s' 0xAF]
             /\ 1000 <= low /\ 10000 <= high)
  /\ (forall ops s', run s ops = Some s' -> reset_pin s' = Some p).
Proof.
  split; [|split].
  - revert Hs. unfold SSD1306_I2C_init.
    destruct (_ <? 0); [discriminate|]. destruct (decide _); [|discriminate].
    intros [= <-]. unfold _SSD1306_init.
    rewrite init_display_eq, poweron_eq.
    cbn [bus set_bus set_buffer set_power emit reset_pin reset_pulse].
    rewrite <- !app_assoc, drop_app_length. reflexivity.
  - intros s' Hr.
    assert (Hon : sent s' (poweron s')
                  = [PinValue p true; Sleep 1000; PinValue p false;
                     Sleep 10000; PinValue p true; Sleep 10000;
                     cmd_ev s' 0xAF]).
    { apply sent_app. rewrite poweron_eq, Hr. reflexivity. }
    split; [exact Hon|].
    exists [PinValue p true; Sleep 1000], 10000, 10000.
    split; [exact Hon|lia].
  - intros ops s' Hr.
    destruct (SSD1306_I2C_init_spec _ _ _ _ _ _ _ Hs)
      as (_ & _ & _ & _ & _ & R & _).
    destruct (stable_run _ _ _ Hr). congruence.
Qed.

Lemma C5_witness :
  exists s, SSD1306_I2C_init 8 8 [] 0x3C false (Some 4%nat) = Some s
            /\ take 8 (drop 0 (bus s))
               = [SwitchToOutput 4%nat false;
                  PinValue 4%nat true; Sleep 1000; PinValue 4%nat false;
                  Sleep 10000; PinValue 4%nat true; Sleep 10000;
                  I2CWrite 0x3C 0x80 0xAF].
Proof.
  eexists. split; [vm_compute; reflexivity|].
  apply (C5_reset_pulse 8 8 [] 0x3C false 4%nat).
  vm_compute. reflexivity.
Defined.

(** C6 as stated fails: the flag is masked to its lowest bit before it is
    or-ed into the command, so [invert(8)] sends 0xA6 and not
    0xA6 | 8 = 0xAE. *)
Lemma C6_invert_unmasked_counterexample :
  let s := mkSSD1306 0x3C [0x40; 0] 1 8 false None 1 true [] in
  sent s (invert s 8) = [cmd_ev s 0xA6]
  /\ sent s (invert s 8) <> [cmd_ev s (Z.lor 0xA6 8)].
Proof. split; [reflexivity|]. vm_compute. discriminate. Qed.

(** C6, amended. [invert(flag)] sends the single command byte
    0xA6 | (flag & 1), which is 0xA6 | flag for the flags 0 and 1:
    [invert(1)] sends 0xA7 and [invert(0)] sends 0xA6; [invert] leaves the
    pixel buffer as it is. *)
Theorem C6_invert_masked (s : SSD1306) (flag : Z) :
  sent s (invert s flag) = [cmd_ev s (Z.lor 0xA6 (Z.land flag 1))]
  /\ buffer (invert s flag) = buffer s
  /\ sent s (invert s 1) = [cmd_ev s 0xA7]
  /\ sent s (invert s 0) = [cmd_ev s 0xA6]
  /\ (forall b : bool,
        sent s (invert s (Z.b2z b)) = [cmd_ev s (Z.lor 0xA6 (Z.b2z b))]).
Proof.
  repeat split; try (apply sent_app; reflexivity).
  intros []; apply sent_app; reflexivity.
Qed.

(** ** Pixels *)

Lemma get_bit_testbit (b n : Z) :
  0 <= n -> Z.land (Z.shiftr b n) 1 = Z.b2z (Z.testbit b n).
Proof.
  intros Hn. change 1 with (Z.ones 1). rewrite Z.land_ones by lia.
  change (2 ^ 1) with 2. rewrite <- Z.bit0_mod, Z.shiftr_spec by lia.
  reflexivity.
Qed.

Lemma testbit_set (b n k : Z) :
  0 <= n ->
  Z.testbit (Z.lor b (Z.shiftl 1 n)) k = (n =? k) || Z.testbit b k.
Proof. intros Hn. exact (Z.setbit_eqb b n k Hn). Qed.

Lemma testbit_clear (b n k : Z) :
  Z.testbit (Z.land b (Z.lnot (Z.shiftl 1 n))) k
  = Z.testbit b k && negb (n =? k).
Proof. rewrite <- Z.ldiff_land. exact (Z.clearbit_eqb b n k). Qed.

Lemma in_bounds_true (s : SSD1306) (x y : Z) :
  0 <= x < width s -> 0 <= y < height s -> in_bounds s x y = true.
Proof.
  intros Hx Hy. unfold in_bounds.
  destruct (Z.leb_spec 0 x), (Z.ltb_spec x (width s)),
    (Z.leb_spec 0 y), (Z.ltb_spec y (height s)); simpl; try lia; reflexivity.
Qed.

Lemma pixel_index_bound (w h x y : Z) :
  h mod 8 = 0 -> 0 <= x < w -> 0 <= y < h ->
  0 <= pixel_index w x y < (h / 8) * w.
Proof.
  intros Hh Hx Hy. unfold pixel_index.
  assert (0 <= y / 8 < h / 8) by (Z.div_mod_to_equations; lia). nia.
Qed.

Lemma pixel_index_inj (w x y x' y' : Z) :
  0 <= x < w -> 0 <= x' < w -> 0 <= y -> 0 <= y' ->
  pixel_index w x y = pixel_index w x' y' ->
  x = x' /\ y / 8 = y' / 8.
Proof.
  unfold pixel_index. intros Hx Hx' Hy Hy' E.
  assert (0 <= y / 8) by (Z.div_mod_to_equations; lia).
  assert (0 <= y' / 8) by (Z.div_mod_to_equations; lia).
  assert (y / 8 = y' / 8) by nia. split; [nia|assumption].
Qed.

Lemma pixel_byte (s : SSD1306) (x y : Z) :
  well_sized s -> 0 <= x < width s -> 0 <= y < height s ->
  (S (Z.to_nat (pixel_index (width s) x y)) < length (buffer s))%nat.
Proof.
  intros [Hh Hl] Hx Hy.
  pose proof (pixel_index_bound (width s) (height s) x y Hh Hx Hy). lia.
Qed.

Lemma get_pixel_eq (s : SSD1306) (x y : Z) :
  0 <= x < width s -> 0 <= y < height s ->
  get_pixel s x y
  = b ← buffer s !! S (Z.to_nat (pixel_index (width s) x y));
    Some (Z.b2z (Z.testbit b (y mod 8))).
Proof.
  intros Hx Hy. unfold get_pixel, view_get, pixel_bit.
  rewrite in_bounds_true by assumption.
  destruct (buffer s !! _) as [b|]; simpl; [|reflexivity].
  rewrite get_bit_testbit by (apply Z.mod_pos_bound; lia). reflexivity.
Qed.

Lemma set_pixel_eq (s : SSD1306) (x y color : Z) :
  well_sized s -> 0 <= x < width s -> 0 <= y < height s ->
  exists b,
    buffer s !! S (Z.to_nat (pixel_index (width s) x y)) = Some b
    /\ set_pixel s x y color
       = Some (set_buffer s
           (<[S (Z.to_nat (pixel_index (width s) x y)) :=
                if color =? 0
                then Z.land b (Z.lnot (Z.shiftl 1 (y mod 8)))
                else Z.lor b (Z.shiftl 1 (y mod 8))]> (buffer s))).
Proof.
  intros Hw Hx Hy. pose proof (pixel_byte s x y Hw Hx Hy) as Hi.
  destruct (lookup_lt_is_Some_2 _ _ Hi) as [b Hb]. exists b.
  split; [exact Hb|].
  unfold set_pixel, view_get, view_set, pixel_bit.
  rewrite in_bounds_true by assumption. rewrite Hb. simpl.
  destruct (decide _); [reflexivity|contradiction].
Qed.

Lemma drive_well_sized w h i2c a vcc reset ops s :
  drive w h i2c a vcc reset ops = Some s -> h mod 8 = 0 ->
  width s = w /\ height s = h /\ well_sized s.
Proof.
  intros Hs Hh.
  destruct (drive_spec _ _ _ _ _ _ _ _ Hs) as (_ & W & H & _ & _ & _ & L & _).
  unfold well_sized. rewrite H, W. auto.
Qed.

(** C7. On a driver that was built for a height that is a multiple of 8
    and then used in any way, for in-bounds [x], [y] and colour 0 or 1:
    [set(x, y, colour)] succeeds, [get(x, y)] then returns the colour,
    every other in-bounds pixel reads as before, and the only change is to
    bit [y % 8] of the pixel byte at index [(y // 8) * width + x]. *)
Theorem C7_set_get w h i2c a vcc reset ops (s : SSD1306) (x y : Z) (c : bool)
    (Hs : drive w h i2c a vcc reset ops = Some s)
    (Hh : h mod 8 = 0) (Hx : 0 <= x < w) (Hy : 0 <= y < h) :
  exists s' b b',
    set_pixel s x y (Z.b2z c) = Some s'
    /\ get_pixel s' x y = Some (Z.b2z c)
    /\ (forall x' y', 0 <= x' < w -> 0 <= y' < h -> (x', y') <> (x, y) ->
          get_pixel s' x' y' = get_pixel s x' y')
    /\ serialize s !! Z.to_nat ((y / 8) * w + x) = Some b
    /\ serialize s' = <[Z.to_nat ((y / 8) * w + x) := b']> (serialize s)
    /\ Z.testbit b' (y mod 8) = c
    /\ (forall k, k <> y mod 8 -> Z.testbit b' k = Z.testbit b k)
    /\ bus s' = bus s.
Proof.
  destruct (drive_well_sized _ _ _ _ _ _ _ _ Hs Hh) as (W & H & Hw).
  rewrite <- W in Hx. rewrite <- H in Hy.
  destruct (set_pixel_eq s x y (Z.b2z c) Hw Hx Hy) as (b & Hb & Hset).
  remember (if Z.b2z c =? 0
            then Z.land b (Z.lnot (Z.shiftl 1 (y mod 8)))
            else Z.lor b (Z.shiftl 1 (y mod 8))) as b' eqn:Eb'.
  assert (Hm : 0 <= y mod 8) by (apply Z.mod_pos_bound; lia).
  assert (Hbit : forall k,
             Z.testbit b' k = if y mod 8 =? k then c else Z.testbit b k).
  { intros k. subst b'. destruct c; simpl.
    - rewrite testbit_set by exact Hm. now destruct (y mod 8 =? k).
    - rewrite testbit_clear. destruct (y mod 8 =? k); simpl;
        [apply andb_false_r|apply andb_true_r]. }
  pose proof (pixel_byte s x y Hw Hx Hy) as Hi.
  set (i := Z.to_nat (pixel_index (width s) x y)) in *.
  exists (set_buffer s (<[S i := b']> (buffer s))), b, b'.
  split; [exact Hset|]. split; [|split; [|split; [|split; [|split; [|split]]]]].
  - rewrite get_pixel_eq by assumption. simpl. fold i.
    rewrite list_lookup_insert_eq by exact Hi. simpl.
    now rewrite Hbit, Z.eqb_refl.
  - intros x' y' Hx' Hy' Hne. rewrite <- W in Hx'. rewrite <- H in Hy'.
    rewrite !get_pixel_eq by assumption. simpl.
    destruct (decide (Z.to_nat (pixel_index (width s) x' y') = i)) as [E|N].
    + rewrite E, list_lookup_insert_eq, Hb by exact Hi. simpl.
      pose proof (pixel_index_bound _ _ _ _ (proj1 Hw) Hx Hy).
      pose proof (pixel_index_bound _ _ _ _ (proj1 Hw) Hx' Hy').
      destruct (pixel_index_inj (width s) x y x' y') as [Ex Ey]; try lia.
      rewrite Hbit.
      destruct (Z.eqb_spec (y mod 8) (y' mod 8)) as [Em|]; [|reflexivity].
      exfalso. apply Hne. f_equal; [congruence|].
      rewrite (Z.div_mod y 8), (Z.div_mod y' 8) by lia. congruence.
    + rewrite list_lookup_insert_ne by lia. reflexivity.
  - unfold serialize. rewrite lookup_drop. simpl.
    rewrite <- W. exact Hb.
  - unfold serialize. simpl. rewrite drop_insert_ge by lia.
    rewrite <- W. f_equal. fold (pixel_index (width s) x y). fold i. lia.
  - now rewrite Hbit, Z.eqb_refl.
  - intros k Hk. rewrite Hbit.
    destruct (Z.eqb_spec (y mod 8) k); [congruence|reflexivity].
  - reflexivity.
Qed.

Lemma C7_witness :
  exists s, drive 4 16 [] 0x3C false None [OpFill 0] = Some s
            /\ 16 mod 8 = 0 /\ 0 <= 3 < 4 /\ 0 <= 9 < 16
            /\ exists s', set_pixel s 3 9 1 = Some s'
                          /\ get_pixel s' 3 9 = Some 1.
Proof.
  eexists. split; [vm_compute; reflexivity|].
  split; [reflexivity|]. split; [lia|]. split; [lia|].
  destruct (C7_set_get 4 16 [] 0x3C false None [OpFill 0] _ 3 9 true
              eq_refl eq_refl ltac:(lia) ltac:(lia))
    as (s' & b & b' & Hset & Hget & _).
  exists s'. split; [exact Hset|exact Hget].
Defined.

Lemma fill_bytes_lookup (b : list Z) (v : Z) (i : nat) :
  (S i < length b)%nat -> fill_bytes b v !! S i = Some v.
Proof.
  intros Hi. rewrite fill_bytes_eq. destruct b as [|x t]; simpl in *; [lia|].
  apply lookup_replicate_2. lia.
Qed.

Lemma get_pixel_fill (s : SSD1306) (color x y : Z) :
  well_sized s -> 0 <= x < width s -> 0 <= y < height s ->
  get_pixel (fill s color) x y = Some (if color =? 0 then 0 else 1).
Proof.
  intros Hw Hx Hy. rewrite get_pixel_eq by assumption. simpl.
  rewrite fill_bytes_lookup by (apply pixel_byte; assumption). simpl.
  destruct (color =? 0).
  - now rewrite Z.testbit_0_l.
  - change 255 with (Z.ones 8). rewrite Z.ones_spec_low; [reflexivity|].
    apply Z.mod_pos_bound. lia.
Qed.

(** C8. After [fill(0)] every pixel byte is 0x00 and after [fill(1)] every
    pixel byte is 0xFF; [fill] keeps the length of the buffer; and on a
    driver built for a height that is a multiple of 8, [get] then returns
    0, respectively 1, at every in-bounds coordinate. *)
Theorem C8_fill w h i2c a vcc reset ops (s : SSD1306)
    (Hs : drive w h i2c a vcc reset ops = Some s) (Hh : h mod 8 = 0) :
  serialize (fill s 0) = replicate (length (serialize s)) 0x00
  /\ serialize (fill s 1) = replicate (length (serialize s)) 0xFF
  /\ (forall x y, 0 <= x < w -> 0 <= y < h ->
        get_pixel (fill s 0) x y = Some 0
        /\ get_pixel (fill s 1) x y = Some 1)
  /\ (forall color,
        length (buffer (fill s color)) = length (buffer s)
        /\ length (serialize (fill s color)) = length (serialize s)
        /\ Z.of_nat (length (serialize (fill s color))) = (h / 8) * w).
Proof.
  destruct (drive_well_sized _ _ _ _ _ _ _ _ Hs Hh) as (W & H & Hw).
  split; [apply fill_bytes_serialize|]. split; [apply fill_bytes_serialize|].
  split.
  - intros x y Hx Hy. rewrite <- W in Hx. rewrite <- H in Hy.
    split; [exact (get_pixel_fill s 0 x y Hw Hx Hy)
           |exact (get_pixel_fill s 1 x y Hw Hx Hy)].
  - intros color.
    assert (Hl : length (buffer (fill s color)) = length (buffer s))
      by apply fill_bytes_length.
    split; [exact Hl|]. unfold serialize. rewrite !length_drop, Hl.
    split; [reflexivity|].
    destruct (drive_spec _ _ _ _ _ _ _ _ Hs)
      as (_ & _ & _ & _ & _ & _ & L & D & _).
    pose proof (lookup_lt_Some _ _ _ D). lia.
Qed.

Lemma C8_witness :
  exists s, drive 4 16 [] 0x3C false None [OpSetPixel 0 0 1] = Some s
            /\ 16 mod 8 = 0
            /\ serialize (fill s 1) = replicate (length (serialize s)) 0xFF.
Proof.
  eexists. split; [vm_compute; reflexivity|]. split; [reflexivity|].
  refine (proj1 (proj2 (C8_fill 4 16 [] 0x3C false None [OpSetPixel 0 0 1]
                          _ _ eq_refl))).
  vm_compute. reflexivity.
Defined.

(** * Further properties of the driver *)

Lemma show_power (s : SSD1306) : _power (show s) = _power s.
Proof. now rewrite show_eq. Qed.

Lemma init_display_power (s : SSD1306) : _power (init_display s) = _power s.
Proof. now rewrite init_display_eq. Qed.

Lemma poweron_sent (s : SSD1306) :
  sent s (poweron s) = reset_pulse (reset_pin s) ++ [cmd_ev s 0xAF].
Proof. apply sent_app. now rewrite poweron_eq. Qed.

Lemma init_display_sent (s : SSD1306) :
  sent s (init_display s)
  = map (cmd_ev s) (init_cmds s ++ extra_cmds (width s))
    ++ map (cmd_ev s) [0x21; fst (col_window (width s));
                       snd (col_window (width s)); 0x22; 0; pages s - 1]
    ++ map (data_ev s) (replicate (length (serialize s)) 0).
Proof. apply sent_app. now rewrite init_display_eq. Qed.

Lemma land_1_odd (f : Z) : Z.land f 1 = Z.b2z (Z.odd f).
Proof.
  change 1 with (Z.ones 1). rewrite Z.land_ones by lia.
  change (2 ^ 1) with 2. now rewrite <- Z.bit0_mod, Z.bit0_odd.
Qed.

(** X1. [contrast(c)] sends the two commands 0x81 and [c], the value
    exactly as given; [contrast], [invert], [poweroff] and [poweron] send
    no data-mode byte and leave the byte array and the geometry alone, and
    the first two also leave [power] alone. *)
Theorem X1_command_only_ops (s : SSD1306) (c inv : Z) :
  sent s (contrast s c) = [cmd_ev s 0x81; cmd_ev s c]
  /\ Forall (fun s' => data_of (sent s s') = []
                       /\ buffer s' = buffer s
                       /\ width s' = width s /\ height s' = height s
                       /\ pages s' = pages s)
            [contrast s c; invert s inv; poweroff s; poweron s]
  /\ power (contrast s c) = power s
  /\ power (invert s inv) = power s.
Proof.
  split; [apply sent_app; unfold contrast, write_cmd, emit; simpl;
          now rewrite <- app_assoc|].
  split; [|split; reflexivity].
  repeat constructor; try (rewrite poweron_eq; reflexivity).
  - erewrite sent_app; [|unfold contrast, write_cmd, emit; simpl;
                          now rewrite <- app_assoc]. reflexivity.
  - erewrite sent_app; [|reflexivity]. reflexivity.
  - erewrite sent_app; [|reflexivity]. reflexivity.
  - rewrite poweron_sent, data_of_app, data_of_reset_pulse. reflexivity.
Qed.

(** X2. [invert] looks at the parity of its argument only: an odd flag
    (negative ones included) sends 0xA7, an even flag sends 0xA6. *)
Theorem X2_invert_parity (s : SSD1306) (flag : Z) :
  sent s (invert s flag) = [cmd_ev s (if Z.odd flag then 0xA7 else 0xA6)].
Proof.
  apply sent_app. unfold invert, write_cmd, emit, cmd_ev; simpl.
  rewrite land_1_odd. now destruct (Z.odd flag).
Qed.

(** X3. [show] reads the driver and changes nothing but the history: the
    byte array and [power] are as before, it makes 6 command writes plus
    one data write per pixel byte, and a second [show] repeats the very
    same writes. *)
Theorem X3_show_repeatable (s : SSD1306) :
  buffer (show s) = buffer s
  /\ power (show s) = power s
  /\ length (sent s (show s)) = (6 + (length (buffer s) - 1))%nat
  /\ sent (show s) (show (show s)) = sent s (show s).
Proof.
  split; [apply show_buffer|]. split; [apply show_power|]. split.
  - rewrite show_sent, length_app, !length_map. unfold serialize.
    now rewrite length_drop.
  - rewrite !show_sent. destruct (stable_show s) as [A W _ P _ _ _ _ _].
    unfold serialize, cmd_ev, data_ev. now rewrite show_buffer, A, W, P.
Qed.

(** X4. [init_display] erases whatever was drawn and its bus traffic does
    not depend on it: with any other content of the same length in the
    byte array the writes are the same; it leaves [power] as it was;
    running it again repeats the same writes and leaves the same array. *)
Theorem X4_init_display_repeatable (s : SSD1306) :
  (forall b', length b' = length (buffer s) ->
     sent (set_buffer s b') (init_display (set_buffer s b'))
     = sent s (init_display s)
     /\ serialize (init_display (set_buffer s b'))
        = serialize (init_display s))
  /\ power (init_display s) = power s
  /\ sent (init_display s) (init_display (init_display s))
     = sent s (init_display s)
  /\ buffer (init_display (init_display s)) = buffer (init_display s).
Proof.
  split; [|split; [apply init_display_power|split]].
  - intros b' Hl. split.
    + rewrite !init_display_sent. unfold serialize; simpl.
      now rewrite !length_drop, Hl.
    + rewrite !init_display_eq. unfold serialize; simpl.
      now rewrite !fill_bytes_serialize, !length_drop, Hl.
  - rewrite !init_display_sent.
    destruct (stable_init_display s) as [A W H P V _ L _ _].
    rewrite (init_cmds_stable s (init_display s) (stable_init_display s)).
    unfold serialize, cmd_ev, data_ev.
    now rewrite !length_drop, L, A, W, P.
  - rewrite (init_display_eq (init_display s)). simpl.
    rewrite init_display_eq. simpl.
    rewrite !fill_bytes_eq. destruct (buffer s) as [|x t]; simpl; [done|].
    now rewrite !Nat.sub_0_r, length_replicate.
Qed.

Lemma X4_witness :
  let s := mkSSD1306 0x3C [0x40; 0xFF; 0x01] 2 8 false None 1 true [] in
  length [0x40; 0; 0] = length (buffer s)
  /\ sent (set_buffer s [0x40; 0; 0]) (init_display (set_buffer s [0x40; 0; 0]))
     = sent s (init_display s).
Proof.
  intros s. split; [reflexivity|].
  apply (proj1 (X4_init_display_repeatable s) [0x40; 0; 0]). reflexivity.
Defined.

Lemma step_power (s s' : SSD1306) (o : op) :
  step s o = Some s' ->
  _power s' = match o with
              | OpPoweron => true
              | OpPoweroff => false
              | _ => _power s
              end.
Proof.
  destruct o; simpl; intros Hs; try (injection Hs as <-);
    try reflexivity.
  - unfold set_pixel in Hs. destruct (in_bounds s x y); [|discriminate].
    destruct (view_get _ _); [|discriminate]. simpl in Hs.
    destruct (view_set _ _ _); [|discriminate]. now injection Hs as <-.
  - apply show_power.
  - apply init_display_power.
Qed.

Lemma run_power (ops : list op) (s s' : SSD1306) :
  run s ops = Some s' -> power s' = power_after (power s) ops.
Proof.
  revert s. induction ops as [|o ops IH]; simpl; intros s Hr.
  - now injection Hr as <-.
  - destruct (step s o) as [s1|] eqn:E; [|discriminate]. simpl in Hr.
    rewrite (IH _ Hr). unfold power. rewrite (step_power _ _ _ E).
    now destruct o.
Qed.

Lemma construction_result w h i2c a vcc reset s :
  SSD1306_I2C_init w h i2c a vcc reset = Some s ->
  0 <= (h / 8) * w
  /\ buffer s = 0x40 :: replicate (Z.to_nat ((h / 8) * w)) 0
  /\ _power s = true
  /\ bus s
     = i2c ++ reset_setup reset ++ reset_pulse reset
       ++ [I2CWrite a 0x80 0xAF]
       ++ map (I2CWrite a 0x80)
            (init_cmds s ++ extra_cmds w
             ++ [0x21; fst (col_window w); snd (col_window w);
                 0x22; 0; h / 8 - 1])
       ++ map (I2CWrite a 0x40) (replicate (Z.to_nat ((h / 8) * w)) 0).
Proof.
  unfold SSD1306_I2C_init.
  destruct (Z.ltb_spec ((h / 8) * w + 1) 0) as [|Hn]; [discriminate|].
  destruct (decide _) as [Hl|]; [|discriminate].
  rewrite length_replicate in Hl.
  assert (Hq : 0 <= (h / 8) * w) by lia.
  replace (Z.to_nat ((h / 8) * w + 1)) with (S (Z.to_nat ((h / 8) * w)))
    by lia.
  intros [= <-]. split; [exact Hq|].
  unfold _SSD1306_init. rewrite init_display_eq, poweron_eq.
  unfold serialize.
  destruct reset as [p|]; cbn [buffer bus set_bus set_buffer set_power emit
                                reset_pin reset_pulse reset_setup
                                width pages addr _power];
    rewrite fill_bytes_eq; cbn [replicate];
    (split; [cbn; now rewrite Nat.sub_0_r, length_replicate|]);
    (split; [reflexivity|]);
    cbn [drop length insert list_insert]; rewrite length_replicate;
    unfold cmd_ev, data_ev, init_cmds;
    cbn [addr height external_vcc width pages set_bus set_buffer set_power
         emit];
    rewrite ?drop_0, ?length_replicate, !map_app, <- !app_assoc;
    reflexivity.
Qed.

(** X5. A construction that returns leaves byte 0 of the array 0x40 and
    every pixel byte 0, and [power] true.  What it did, in order: switch
    the reset line (if any) to output low, the reset pulse (if any),
    display-on 0xAF, the initialization commands (which begin with
    display-off and end with display-on), the extra commands of the
    72-pixel panel, the six window commands, and one zero data byte per
    pixel byte. *)
Theorem X5_construction w h i2c a vcc reset (s : SSD1306)
    (Hs : SSD1306_I2C_init w h i2c a vcc reset = Some s) :
  buffer s = 0x40 :: replicate (Z.to_nat ((h / 8) * w)) 0
  /\ power s = true
  /\ bus s
     = i2c ++ reset_setup reset ++ reset_pulse reset
       ++ [I2CWrite a 0x80 0xAF]
       ++ map (I2CWrite a 0x80)
            (init_cmds s ++ extra_cmds w
             ++ [0x21; fst (col_window w); snd (col_window w);
                 0x22; 0; h / 8 - 1])
       ++ map (I2CWrite a 0x40) (replicate (Z.to_nat ((h / 8) * w)) 0).
Proof.
  destruct (construction_result _ _ _ _ _ _ _ Hs) as (_ & B & P & T).
  auto.
Qed.

Lemma X5_witness :
  exists s, SSD1306_I2C_init 2 8 [] 0x3C false None = Some s
            /\ buffer s = [0x40; 0; 0]
            /\ power s = true.
Proof.
  eexists. split; [vm_compute; reflexivity|].
  refine (let H := X5_construction 2 8 [] 0x3C false None _ _ in
          conj (proj1 H) (proj1 (proj2 H))).
  vm_compute. reflexivity.
Defined.


(** X7. After a construction and any operations, [power] is true unless
    the last of the [poweron] and [poweroff] calls was a [poweroff]; no
    other operation changes it, [init_display] included, although that
    one sends display-off and display-on. *)
Theorem X7_power_tracks_last_switch w h i2c a vcc reset ops (s : SSD1306)
    (Hs : drive w h i2c a vcc reset ops = Some s) :
  power s = power_after true ops.
Proof.
  unfold drive in Hs.
  destruct (SSD1306_I2C_init _ _ _ _ _ _) as [s0|] eqn:E; [|discriminate].
  simpl in Hs. rewrite (run_power _ _ _ Hs). f_equal.
  now destruct (construction_result _ _ _ _ _ _ _ E) as (_ & _ & P & _).
Qed.

Lemma X7_witness :
  exists s, drive 2 8 [] 0x3C false None [OpPoweroff; OpInitDisplay] = Some s
            /\ power s = false.
Proof.
  eexists. split; [vm_compute; reflexivity|].
  apply (X7_power_tracks_last_switch 2 8 [] 0x3C false None
           [OpPoweroff; OpInitDisplay]).
  vm_compute. reflexivity.
Defined.

Lemma permitted_writes (r : option pin) (a c : Z) (l : list Z) :
  Forall (permitted r) (map (I2CWrite a c) l).
Proof. induction l; simpl; constructor; simpl; auto. Qed.

Lemma permitted_reset_pulse (r : option pin) :
  Forall (permitted r) (reset_pulse r).
Proof.
  destruct r; simpl; [|constructor].
  repeat (constructor;
          [first [reflexivity | split; [eexists; reflexivity|lia]]|]).
  constructor.
Qed.

Lemma permitted_reset_setup (r : option pin) :
  Forall (permitted r) (reset_setup r).
Proof. destruct r; simpl; constructor; [split; reflexivity|constructor]. Qed.

Lemma set_pixel_bus (s s' : SSD1306) (x y c : Z) :
  set_pixel s x y c = Some s' -> bus s' = bus s.
Proof.
  unfold set_pixel. intros Hs. destruct (in_bounds s x y); [|discriminate].
  destruct (view_get _ _); [|discriminate]. simpl in Hs.
  destruct (view_set _ _ _); [|discriminate]. now injection Hs as <-.
Qed.

Lemma contrast_eq (s : SSD1306) (c : Z) :
  contrast s c = set_bus s (bus s ++ map (cmd_ev s) [SET_CONTRAST; c]).
Proof.
  unfold contrast, write_cmd, emit, set_bus; simpl. now rewrite <- app_assoc.
Qed.

(** What each operation appends to the history. *)
Lemma step_bus (s s' : SSD1306) (o : op) :
  step s o = Some s' ->
  bus s'
  = bus s
    ++ match o with
       | OpSetPixel _ _ _ | OpFill _ => []
       | OpShow => sent s (show s)
       | OpContrast c => map (cmd_ev s) [SET_CONTRAST; c]
       | OpInvert i => [cmd_ev s (Z.lor SET_NORM_INV (Z.land i 1))]
       | OpPoweroff => [cmd_ev s 0xAE]
       | OpPoweron => reset_pulse (reset_pin s) ++ [cmd_ev s 0xAF]
       | OpInitDisplay => sent s (init_display s)
       end.
Proof.
  destruct o; simpl; intros Hs; try (injection Hs as <-).
  - rewrite (set_pixel_bus _ _ _ _ _ Hs). now rewrite app_nil_r.
  - simpl. now rewrite app_nil_r.
  - rewrite show_sent. now rewrite show_eq.
  - now rewrite contrast_eq.
  - reflexivity.
  - reflexivity.
  - now rewrite poweron_eq.
  - rewrite init_display_sent. now rewrite init_display_eq.
Qed.

Lemma step_permitted (s s' : SSD1306) (o : op) :
  step s o = Some s' ->
  exists l, bus s' = bus s ++ l /\ Forall (permitted (reset_pin s)) l.
Proof.
  intros Hs. eexists. split; [apply (step_bus _ _ _ Hs)|].
  destruct o; try rewrite show_sent; try rewrite init_display_sent;
    repeat (apply Forall_app; split);
    try apply permitted_writes; try apply permitted_reset_pulse;
    repeat constructor.
Qed.

Lemma run_permitted (ops : list op) (s s' : SSD1306) :
  run s ops = Some s' ->
  exists l, bus s' = bus s ++ l /\ Forall (permitted (reset_pin s)) l.
Proof.
  revert s. induction ops as [|o ops IH]; simpl; intros s Hr.
  - injection Hr as <-. exists []. split; [now rewrite app_nil_r|constructor].
  - destruct (step s o) as [s1|] eqn:E; [|discriminate]. simpl in Hr.
    destruct (step_permitted _ _ _ E) as (l1 & B1 & F1).
    destruct (IH _ Hr) as (l2 & B2 & F2).
    rewrite (st_reset _ _ (stable_step _ _ _ E)) in F2.
    exists (l1 ++ l2). split.
    + rewrite B2, B1. now rewrite app_assoc.
    + apply Forall_app. auto.
Qed.

(** X8. A driver touches nothing but the bus and its own reset line:
    every event of a construction and of any operations after it is a bus
    write, or an action on the reset line given to the constructor, or one
    of the two sleeps of the reset pulse; built without a reset line, the
    driver only ever writes to the bus and never sleeps. *)
Theorem X8_only_bus_and_reset_line w h i2c a vcc reset ops (s : SSD1306)
    (Hs : drive w h i2c a vcc reset ops = Some s) :
  exists l,
    bus s = i2c ++ l
    /\ Forall (permitted reset) l
    /\ (reset = None ->
        Forall (fun e => exists a' c v, e = I2CWrite a' c v) l).
Proof.
  unfold drive in Hs.
  destruct (SSD1306_I2C_init _ _ _ _ _ _) as [s0|] eqn:E; [|discriminate].
  simpl in Hs.
  destruct (construction_result _ _ _ _ _ _ _ E) as (_ & _ & _ & B0).
  destruct (SSD1306_I2C_init_spec _ _ _ _ _ _ _ E)
    as (_ & _ & _ & _ & _ & R & _).
  destruct (run_permitted _ _ _ Hs) as (l & B & F). rewrite R in F.
  rewrite B0 in B. rewrite <- app_assoc in B.
  eexists. split; [exact B|].
  assert (Hall : Forall (permitted reset)
            ((reset_setup reset ++ reset_pulse reset
              ++ [I2CWrite a 0x80 0xAF]
              ++ map (I2CWrite a 0x80)
                   (init_cmds s0 ++ extra_cmds w
                    ++ [0x21; fst (col_window w); snd (col_window w);
                        0x22; 0; h / 8 - 1])
              ++ map (I2CWrite a 0x40)
                   (replicate (Z.to_nat ((h / 8) * w)) 0)) ++ l)).
  { repeat (apply Forall_app; split);
      auto using permitted_writes, permitted_reset_pulse,
        permitted_reset_setup.
    repeat constructor. }
  split; [exact Hall|].
  intros ->. eapply List.Forall_impl; [|exact Hall].
  intros [a' c v|p v|p v|us]; simpl.
  - eauto.
  - intros [[=] _].
  - intros [=].
  - intros [[x [=]] _].
Qed.

Lemma X8_witness :
  exists s l,
    drive 2 8 [] 0x3C false (Some 7%nat) [OpPoweron; OpShow] = Some s
    /\ bus s = [] ++ l /\ Forall (permitted (Some 7%nat)) l.
Proof.
  eexists.
  destruct (X8_only_bus_and_reset_line 2 8 [] 0x3C false (Some 7%nat)
              [OpPoweron; OpShow] _ ltac:(vm_compute; reflexivity))
    as (l & B & F & _).
  exists l. split; [vm_compute; reflexivity|]. split; [exact B|exact F].
Defined.

(** ** Values on the bus *)

Lemma byte_land_ones (b : Z) : 0 <= b <= 255 <-> Z.land b 255 = b.
Proof.
  change 255 with (Z.ones 8) at 2. rewrite Z.land_ones by lia.
  change (2 ^ 8) with 256. split.
  - intros Hb. apply Z.mod_small. lia.
  - intros <-. pose proof (Z.mod_pos_bound b 256). lia.
Qed.

Lemma byte_set_bit (b k : Z) :
  0 <= b <= 255 -> 0 <= k < 8 -> 0 <= Z.lor b (Z.shiftl 1 k) <= 255.
Proof.
  intros Hb Hk. apply byte_land_ones. rewrite Z.land_lor_distr_l.
  rewrite (proj1 (byte_land_ones b) Hb). f_equal.
  apply byte_land_ones. rewrite Z.shiftl_1_l.
  pose proof (Z.pow_le_mono_r 2 k 7). pose proof (Z.pow_pos_nonneg 2 k).
  change (2 ^ 7) with 128 in *. lia.
Qed.

Lemma byte_clear_bits (b m : Z) :
  0 <= b <= 255 -> 0 <= Z.land b m <= 255.
Proof.
  intros Hb. apply byte_land_ones.
  rewrite <- Z.land_assoc, (Z.land_comm m 255), Z.land_assoc.
  now rewrite (proj1 (byte_land_ones b) Hb).
Qed.

Lemma byte_writes (a c : Z) (l : list Z) :
  Forall (fun v => 0 <= v <= 255) l ->
  Forall byte_write (map (I2CWrite a c) l).
Proof. induction 1; simpl; constructor; auto. Qed.

Lemma byte_reset_pulse (r : option pin) : Forall byte_write (reset_pulse r).
Proof. destruct r; simpl; repeat constructor. Qed.

Lemma byte_reset_setup (r : option pin) : Forall byte_write (reset_setup r).
Proof. destruct r; simpl; repeat constructor. Qed.

Ltac each_byte :=
  repeat match goal with
         | |- Forall _ (_ :: _) => constructor
         | |- Forall _ [] => constructor
         end.

Lemma init_cmds_bytes (s : SSD1306) :
  1 <= height s <= 256 -> Forall (fun v => 0 <= v <= 255) (init_cmds s).
Proof.
  intros Hh. unfold init_cmds. each_byte;
    unfold SET_DISP, SET_MEM_ADDR, SET_DISP_START_LINE, SET_SEG_REMAP,
      SET_MUX_RATIO, SET_COM_OUT_DIR, SET_DISP_OFFSET, SET_COM_PIN_CFG,
      SET_DISP_CLK_DIV, SET_PRECHARGE, SET_VCOM_DESEL, SET_CONTRAST,
      SET_ENTIRE_ON, SET_NORM_INV, SET_CHARGE_PUMP;
    repeat match goal with
           | |- context [if ?b then _ else _] => destruct b
           | |- context [Z.lor ?a ?b] =>
               let v := eval vm_compute in (Z.lor a b) in
               change (Z.lor a b) with v
           end; lia.
Qed.

Lemma extra_cmds_bytes (w : Z) : Forall (fun v => 0 <= v <= 255) (extra_cmds w).
Proof. unfold extra_cmds. destruct (w =? 72); each_byte; lia. Qed.

Lemma window_bytes (w p : Z) :
  1 <= w <= 256 -> 1 <= p <= 256 ->
  Forall (fun v => 0 <= v <= 255)
    [0x21; fst (col_window w); snd (col_window w); 0x22; 0; p - 1].
Proof.
  intros Hw Hp. unfold col_window, col_offset.
  destruct (Z.eqb_spec w 64); [|destruct (Z.eqb_spec w 72)];
    each_byte; simpl; lia.
Qed.

Lemma show_bytes (s : SSD1306) :
  byte_geometry s -> Forall byte_write (sent s (show s)).
Proof.
  intros (Hw & Hh & Hp & Hb). rewrite show_sent.
  apply Forall_app. split; apply byte_writes.
  - apply window_bytes; [exact Hw|]. rewrite Hp.
    Z.div_mod_to_equations. lia.
  - unfold serialize. now apply Forall_drop.
Qed.

Lemma init_display_bytes (s : SSD1306) :
  byte_geometry s -> Forall byte_write (sent s (init_display s)).
Proof.
  intros (Hw & Hh & Hp & Hb). rewrite init_display_sent.
  repeat (apply Forall_app; split); apply byte_writes.
  - apply Forall_app. split; [apply init_cmds_bytes; lia|].
    apply extra_cmds_bytes.
  - apply window_bytes; [exact Hw|]. rewrite Hp.
    Z.div_mod_to_equations. lia.
  - apply Forall_replicate. lia.
Qed.

Lemma fill_bytes_bytes (b : list Z) (v : Z) :
  Forall (fun x => 0 <= x <= 255) b -> 0 <= v <= 255 ->
  Forall (fun x => 0 <= x <= 255) (fill_bytes b v).
Proof.
  intros Hb Hv. rewrite fill_bytes_eq. apply Forall_app. split.
  - now apply Forall_take.
  - now apply Forall_replicate.
Qed.

Lemma set_pixel_bytes (s s' : SSD1306) (x y c : Z) :
  set_pixel s x y c = Some s' ->
  Forall (fun b => 0 <= b <= 255) (buffer s) ->
  Forall (fun b => 0 <= b <= 255) (buffer s').
Proof.
  unfold set_pixel, view_get, view_set, in_bounds, pixel_bit.
  intros Hs Hb.
  destruct (Z.leb_spec 0 x); [|discriminate].
  destruct (x <? width s); [|discriminate].
  destruct (Z.leb_spec 0 y); [|discriminate].
  destruct (y <? height s); [|discriminate]. simpl in Hs.
  destruct (buffer s !! _) as [b|] eqn:E; [|discriminate]. simpl in Hs.
  destruct (decide _); [|discriminate]. simpl in Hs. injection Hs as <-.
  simpl. apply Forall_insert; [exact Hb|].
  pose proof (Forall_lookup_1 _ _ _ _ Hb E) as Hbyte. simpl in Hbyte.
  destruct (c =? 0).
  - now apply byte_clear_bits.
  - apply byte_set_bit; [exact Hbyte|]. apply Z.mod_pos_bound. lia.
Qed.

Lemma step_bytes (s s' : SSD1306) (o : op) :
  byte_geometry s -> byte_op o -> step s o = Some s' ->
  byte_geometry s'
  /\ exists l, bus s' = bus s ++ l /\ Forall byte_write l.
Proof.
  intros G Ho Hs. pose proof (stable_step _ _ _ Hs) as St.
  pose proof (step_bus _ _ _ Hs) as Hb.
  destruct G as (Hw & Hh & Hp & Hbuf).
  split.
  - unfold byte_geometry.
    rewrite (st_width _ _ St), (st_height _ _ St), (st_pages _ _ St).
    repeat (split; [assumption|]).
    destruct o; simpl in Hs; try (injection Hs as <-);
      rewrite ?show_buffer; try assumption.
    + eapply set_pixel_bytes; eassumption.
    + simpl. apply fill_bytes_bytes; [exact Hbuf|].
      destruct (color =? 0); lia.
    + rewrite poweron_eq. exact Hbuf.
    + rewrite init_display_eq. simpl. apply fill_bytes_bytes; [exact Hbuf|lia].
  - eexists. split; [exact Hb|].
    destruct o; simpl in Ho.
    + constructor.
    + constructor.
    + apply show_bytes. unfold byte_geometry. auto.
    + apply byte_writes. each_byte; [unfold SET_CONTRAST; lia|exact Ho].
    + constructor; [|constructor]. unfold byte_write, cmd_ev, SET_NORM_INV.
      rewrite land_1_odd. destruct (Z.odd inv); simpl;
        match goal with
        | |- context [Z.lor ?a ?b] =>
            let v := eval vm_compute in (Z.lor a b) in
            change (Z.lor a b) with v
        end; clear; lia.
    + constructor; [|constructor]. unfold byte_write, cmd_ev. clear. lia.
    + apply Forall_app. split; [apply byte_reset_pulse|].
      constructor; [|constructor]. unfold byte_write, cmd_ev. clear. lia.
    + apply init_display_bytes. unfold byte_geometry. auto.
Qed.

Lemma run_bytes (ops : list op) (s s' : SSD1306) :
  byte_geometry s -> Forall byte_op ops -> run s ops = Some s' ->
  byte_geometry s'
  /\ exists l, bus s' = bus s ++ l /\ Forall byte_write l.
Proof.
  revert s. induction ops as [|o ops IH]; simpl; intros s G Ho Hr.
  - injection Hr as <-. split; [exact G|].
    exists []. split; [now rewrite app_nil_r|constructor].
  - destruct (step s o) as [s1|] eqn:E; [|discriminate]. simpl in Hr.
    pose proof (List.Forall_inv Ho) as Ho1.
    pose proof (List.Forall_inv_tail Ho) as Ho2.
    destruct (step_bytes _ _ _ G Ho1 E) as (G1 & l1 & B1 & F1).
    destruct (IH _ G1 Ho2 Hr) as (G2 & l2 & B2 & F2).
    split; [exact G2|]. exists (l1 ++ l2). split.
    + rewrite B2, B1. now rewrite app_assoc.
    + apply Forall_app. auto.
Qed.

(** X9. For a width from 1 to 256 and a height from 8 to 256, and as
    long as [contrast] is only called with values from 0 to 255, every
    value a driver hands to the bus - at construction and in any
    operations after it - lies between 0 and 255, and so does every
    element of its byte array. *)
Theorem X9_bus_values_are_bytes w h i2c a vcc reset ops (s : SSD1306)
    (Hs : drive w h i2c a vcc reset ops = Some s)
    (Hw : 1 <= w <= 256) (Hh : 8 <= h <= 256)
    (Ho : Forall byte_op ops) :
  Forall byte_write (drop (length i2c) (bus s))
  /\ Forall (fun b => 0 <= b <= 255) (buffer s).
Proof.
  unfold drive in Hs.
  destruct (SSD1306_I2C_init _ _ _ _ _ _) as [s0|] eqn:E; [|discriminate].
  simpl in Hs.
  destruct (construction_result _ _ _ _ _ _ _ E) as (_ & Bf & _ & B0).
  destruct (SSD1306_I2C_init_spec _ _ _ _ _ _ _ E)
    as (_ & W & H & P & _).
  assert (Hq : 1 <= h / 8 <= 256) by (Z.div_mod_to_equations; lia).
  assert (G : byte_geometry s0).
  { unfold byte_geometry. rewrite W, H, P, Bf.
    repeat (split; [first [assumption|reflexivity]|]).
    constructor; [lia|]. apply Forall_replicate. lia. }
  destruct (run_bytes _ _ _ G Ho Hs) as ((_ & _ & _ & Hbuf) & l & B & F).
  split; [|exact Hbuf].
  rewrite B, B0, <- app_assoc, drop_app_length.
  repeat (apply Forall_app; split);
    auto using byte_reset_setup, byte_reset_pulse.
  - constructor; [simpl; lia|constructor].
  - apply byte_writes. repeat (apply Forall_app; split).
    + apply init_cmds_bytes. lia.
    + apply extra_cmds_bytes.
    + now apply window_bytes.
  - apply byte_writes. apply Forall_replicate. lia.
Qed.

Lemma X9_witness :
  exists s, drive 4 16 [] 0x3C false None
              [OpContrast 200; OpSetPixel 1 9 1; OpShow] = Some s
            /\ Forall byte_write (drop 0 (bus s)).
Proof.
  eexists. split; [vm_compute; reflexivity|].
  refine (proj1 (X9_bus_values_are_bytes 4 16 [] 0x3C false None
                   [OpContrast 200; OpSetPixel 1 9 1; OpShow] _ _
                   ltac:(lia) ltac:(lia) _)).
  - vm_compute. reflexivity.
  - repeat constructor; simpl; lia.
Defined.

(** X10. The window [show] announces and the data it sends agree: the
    column window spans exactly [width] columns, the page window every
    page, and the number of data bytes is the product of the two; for a
    width up to 128 the window lies within columns 0 to 127, and for the
    widths 64 and 72 it is centred there. *)
Theorem X10_window_matches_data w h i2c a vcc reset ops (s : SSD1306)
    (Hs : drive w h i2c a vcc reset ops = Some s) :
  exists x0 x1,
    cmds_of (sent s (show s)) = [0x21; x0; x1; 0x22; 0; h / 8 - 1]
    /\ x1 - x0 + 1 = w
    /\ Z.of_nat (length (data_of (sent s (show s))))
       = (x1 - x0 + 1) * ((h / 8 - 1) - 0 + 1)
    /\ (1 <= w <= 128 -> 0 <= x0 /\ x1 <= 127)
    /\ (w = 64 \/ w = 72 -> x0 + x1 = 127).
Proof.
  destruct (drive_spec _ _ _ _ _ _ _ _ Hs)
    as (_ & W & _ & P & _ & _ & L & D & _).
  exists (fst (col_window w)), (snd (col_window w)).
  split; [|split; [|split; [|split]]].
  - rewrite show_sent, cmds_of_app, cmds_of_cmds, cmds_of_data, W, P.
    reflexivity.
  - unfold col_window; simpl. lia.
  - rewrite show_data. unfold serialize. rewrite length_drop.
    pose proof (lookup_lt_Some _ _ _ D).
    unfold col_window; simpl. nia.
  - unfold col_window, col_offset; simpl.
    destruct (Z.eqb_spec w 64); [|destruct (Z.eqb_spec w 72)]; lia.
  - unfold col_window, col_offset; simpl.
    intros [-> | ->]; reflexivity.
Qed.

Lemma X10_witness :
  exists s x0 x1,
    drive 64 48 [] 0x3C false None [] = Some s
    /\ cmds_of (sent s (show s)) = [0x21; x0; x1; 0x22; 0; 48 / 8 - 1]
    /\ x1 - x0 + 1 = 64.
Proof.
  eexists.
  destruct (X10_window_matches_data 64 48 [] 0x3C false None [] _
              ltac:(vm_compute; reflexivity))
    as (x0 & x1 & Hc & Hx & _).
  exists x0, x1. split; [vm_compute; reflexivity|]. split; [exact Hc|exact Hx].
Defined.

(** X11. A height from 0 to 7 is accepted for any width: the driver then
    has no pixel byte at all, its [show] sends no data, and the page
    window it announces ends at page -1. *)
Theorem X11_height_below_8 w h i2c a vcc reset (Hh : 0 <= h < 8) :
  is_Some (SSD1306_I2C_init w h i2c a vcc reset)
  /\ forall ops s, drive w h i2c a vcc reset ops = Some s ->
       buffer s = [0x40]
       /\ data_of (sent s (show s)) = []
       /\ cmds_of (sent s (show s)) !! 5%nat = Some (-1).
Proof.
  assert (Hq : h / 8 = 0) by (apply Z.div_small; lia).
  split; [apply SSD1306_I2C_init_total; rewrite Hq; lia|].
  intros ops s Hs.
  destruct (drive_spec _ _ _ _ _ _ _ _ Hs)
    as (_ & _ & _ & P & _ & _ & L & D & _).
  rewrite Hq in L, P.
  assert (Hb : buffer s = [0x40]).
  { destruct (buffer s) as [|x [|y t]]; simpl in *; try lia; congruence. }
  split; [exact Hb|]. split.
  - rewrite show_data. unfold serialize. now rewrite Hb.
  - rewrite show_sent, cmds_of_app, cmds_of_cmds, cmds_of_data, P.
    reflexivity.
Qed.

Lemma X11_witness :
  0 <= 7 < 8 /\ is_Some (SSD1306_I2C_init 128 7 [] 0x3C false None).
Proof.
  split; [lia|].
  apply (X11_height_below_8 128 7 [] 0x3C false None). lia.
Defined.

(** ** The base class without and with the overrides *)

Lemma and_then_raised (e : exn) (s : SSD1306) (T : bus_methods) (l : list Z) :
  foldl (fun r c => and_then r (fun s => m_write_cmd T s c)) (Raised e s) l
  = Raised e s.
Proof. induction l as [|c l IH]; simpl; [reflexivity|exact IH]. Qed.



Lemma base_show_cmd_only (s : SSD1306) :
  exists s', base_show cmd_only_methods s = Raised NotImplementedError s'
             /\ buffer s' = buffer s
             /\ sent s s'
                = map (cmd_ev s)
                    [0x21; fst (col_window (width s));
                     snd (col_window (width s)); 0x22; 0; pages s - 1].
Proof.
  unfold base_show, col_window, col_offset.
  destruct (Z.eqb_spec (width s) 64) as [E|N];
    [rewrite E; change (64 =? 72) with false
    |destruct (Z.eqb_spec (width s) 72) as [E|N']];
    simpl; eexists; (split; [reflexivity|]); (split; [reflexivity|]);
    apply sent_app; unfold write_cmd, emit, cmd_ev; simpl;
    rewrite <- !app_assoc; simpl; repeat f_equal; lia.
Qed.

(** X12. With the bus primitives of the base class itself, every method
    that reaches the bus raises NotImplementedError: [show],
    [init_display], [poweroff], [contrast] and [invert] raise before
    anything happened; [poweron] raises after the reset pulse (if there is
    a reset line) and leaves [power] as it was; a construction raises
    after the reset line was set up and pulsed, with [power] false.  With
    [write_cmd] overridden but [write_framebuf] inherited, [show] sends
    its six window commands and then raises. *)
Theorem X12_base_class_raises (s : SSD1306) (c inv a w h : Z)
    (i2c : list event) (buf : list Z) (vcc : bool) (reset : option pin) :
  base_show base_methods s = Raised NotImplementedError s
  /\ base_init_display base_methods s = Raised NotImplementedError s
  /\ base_poweroff base_methods s = Raised NotImplementedError s
  /\ base_contrast base_methods s c = Raised NotImplementedError s
  /\ base_invert base_methods s inv = Raised NotImplementedError s
  /\ (exists s', base_poweron base_methods s = Raised NotImplementedError s'
                 /\ power s' = power s
                 /\ bus s' = bus s ++ reset_pulse (reset_pin s))
  /\ (exists s', base_init base_methods a i2c buf w h vcc reset
                 = Raised NotImplementedError s'
                 /\ power s' = false
                 /\ bus s' = i2c ++ reset_setup reset ++ reset_pulse reset)
  /\ (exists s', base_show cmd_only_methods s = Raised NotImplementedError s'
                 /\ buffer s' = buffer s
                 /\ sent s s'
                    = map (cmd_ev s)
                        [0x21; fst (col_window (width s));
                         snd (col_window (width s)); 0x22; 0; pages s - 1]).
Proof.
  split; [unfold base_show; destruct (width s =? 64), (width s =? 72);
          reflexivity|].
  split; [unfold base_init_display, base_write_cmds; simpl;
          rewrite ?and_then_raised; reflexivity|].
  do 3 (split; [reflexivity|]).
  split; [|split].
  - unfold base_poweron. destruct s as [a0 b0 w0 h0 v0 [p|] pg pw t]; simpl;
      eexists; (split; [reflexivity|]); split; try reflexivity.
    + simpl. now rewrite <- !app_assoc.
    + simpl. now rewrite app_nil_r.
  - unfold base_init, base_poweron. destruct reset as [p|]; simpl;
      eexists; (split; [reflexivity|]); split; try reflexivity.
    + simpl. now rewrite <- !app_assoc.
    + simpl. now rewrite app_nil_r.
  - apply base_show_cmd_only.
Qed.


(** X14. No operation reconfigures a driver: after a construction and
    any operations the address, the width, the height, the external-power
    flag and the reset line are those given to the constructor, the page
    count is still height // 8, and the history only grew. *)
Theorem X14_configuration_is_fixed w h i2c a vcc reset ops (s : SSD1306)
    (Hs : drive w h i2c a vcc reset ops = Some s) :
  addr s = a /\ width s = w /\ height s = h /\ pages s = h / 8
  /\ external_vcc s = vcc /\ reset_pin s = reset
  /\ take (length i2c) (bus s) = i2c.
Proof.
  destruct (drive_spec _ _ _ _ _ _ _ _ Hs)
    as (A & W & H & P & V & R & _ & _ & l & B & _).
  repeat (split; [assumption|]).
  rewrite B. now rewrite take_app_length.
Qed.

Lemma X14_witness :
  exists s, drive 4 16 [Sleep 5] 0x3D true (Some 2%nat)
              [OpInitDisplay; OpPoweroff; OpFill 1] = Some s
            /\ addr s = 0x3D.
Proof.
  eexists. split; [vm_compute; reflexivity|].
  apply (X14_configuration_is_fixed 4 16 [Sleep 5] 0x3D true (Some 2%nat)
           [OpInitDisplay; OpPoweroff; OpFill 1]).
  vm_compute. reflexivity.
Defined.

